(** * The pandas dataframe agent toolkit, embedded and verified

    A shallow embedding of
    [libs/experimental/langchain_experimental/agents/agent_toolkits/pandas/base.py]:
    the helpers [_get_multi_prompt], [_get_single_prompt],
    [_get_prompt_and_tools], [_get_functions_single_prompt],
    [_get_functions_multi_prompt], [_get_functions_prompt_and_tools] and the
    entry point [create_pandas_dataframe_agent].

    Python exceptions and the two visible effects of the module (the pandas
    display option and the construction of tools and agents) are threaded
    through a small writer/exception monad [M]. *)

From Stdlib Require Import ZArith QArith Ascii String.
From stdpp Require Import gmap strings list fin_maps pretty.

Local Open Scope string_scope.
Local Open Scope Z_scope.

(* ===================================================================== *)
(** ** Exceptions and outcomes *)
(* ===================================================================== *)

Inductive Exc : Type :=
  | ValueError (msg : string)
  | ImportError (msg : string)
  | TypeError (msg : string)
  | KeyError (msg : string)
  | IndexError (msg : string).

(** What a call that may raise comes back with. *)
Inductive outcome (A : Type) : Type :=
  | Raise (e : Exc)
  | Return (a : A).
Arguments Raise {A} e.
Arguments Return {A} a.

(* ===================================================================== *)
(** ** Python values the module receives *)
(* ===================================================================== *)

(** The operations of a [pd.DataFrame] the module calls: [df.head(n)], and
    [df.to_markdown()], which raises when the table cannot be rendered (it
    relies on an optional package). *)
Class Dataset (D : Type) := {
  head : Z → D → D;
  to_markdown : D → outcome string
}.

(** The [df: Any] argument: a dataframe, a Python [list] of arbitrary
    objects, or any other object (identified by the name of its class). *)
#[warnings="-register-all"]
Inductive PyObj (D : Type) : Type :=
  | PyDataFrame (d : D)
  | PyList (items : list (PyObj D))
  | PyOther (class_name : string).
Arguments PyDataFrame {D} d.
Arguments PyList {D} items.
Arguments PyOther {D} class_name.

(** [f"{type(df)}"]. *)
Definition type_repr {D} (df : PyObj D) : string :=
  match df with
  | PyDataFrame _ => "<class 'pandas.core.frame.DataFrame'>"
  | PyList _ => "<class 'list'>"
  | PyOther c => "<class '" +:+ c +:+ "'>"
  end.

(** Truth value of an [Optional[bool]]: [None] is falsy. *)
Definition truthy (b : option bool) : bool :=
  match b with Some true => true | _ => false end.

(** [x is not None]. *)
Definition is_not_None {A} (x : option A) : bool :=
  match x with Some _ => true | None => false end.

(** [sep.join(parts)]. *)
Fixpoint str_join (sep : string) (parts : list string) : string :=
  match parts with
  | [] => ""
  | [p] => p
  | p :: rest => p +:+ sep +:+ str_join sep rest
  end.

(** The two-character separator ["\n\n"]. *)
Definition blank_line : string :=
  String (Ascii.ascii_of_nat 10) (String (Ascii.ascii_of_nat 10) "").

(* ===================================================================== *)
(** ** The exceptions of the module *)
(* ===================================================================== *)

(** The names the specification gives to the [raise] sites of the module. *)
Definition ConfigurationConflict : Exc :=
  ValueError "If suffix is specified, include_df_in_prompt should not be.".
Definition UnsupportedOption : Exc :=
  ValueError "`input_variables` is not supported at the moment.".
Definition TypeMismatch {D} (df : PyObj D) : Exc :=
  ValueError ("Expected pandas object, got " +:+ type_repr df).
Definition UnsupportedProtocol (agent_type : string) : Exc :=
  ValueError ("Agent type " +:+ agent_type +:+ " not supported at the moment.").
Definition MissingDependency : Exc :=
  ImportError "pandas package not found, please install with `pip install pandas`".

(* ===================================================================== *)
(** ** Collaborators: tools, prompts, agents, executor *)
(* ===================================================================== *)

(** A tool is either the Python REPL tool, which owns its [locals]
    dictionary, or some other [BaseTool] of the caller. *)
Inductive Tool (D : Type) : Type :=
  | PythonAstREPLTool (locals : gmap string D)
  | BaseTool (name : string).
Arguments PythonAstREPLTool {D} locals.
Arguments BaseTool {D} name.

(** Modelled from the spec: [ZeroShotAgent.create_prompt] and
    [PromptTemplate.partial] are not part of the module. Following the
    specification (3, PromptArtifact (a)), the prompt is a named-slot template
    that records the tool list, prefix, suffix and declared slot names it was
    created with, plus the slots pre-filled by [partial]. *)
Module PromptTemplate.
Record t (D : Type) : Type := mk {
  tools : list (Tool D);
  prefix : string;
  suffix : string;
  input_variables : list string;
  partial_variables : gmap string string
}.
Arguments mk {D}.
Arguments tools {D}.
Arguments prefix {D}.
Arguments suffix {D}.
Arguments input_variables {D}.
Arguments partial_variables {D}.

(** [prompt.partial] with keyword arguments [kwargs]: the new bindings are
    merged over the existing ones, the later binding of a name winning. *)
Definition partial {D} (p : t D) (kwargs : gmap string string) : t D :=
  mk (tools p) (prefix p) (suffix p) (input_variables p)
     (kwargs ∪ partial_variables p).
End PromptTemplate.

(** [BasePromptTemplate]: the template of the text-action protocol, or the
    chat prompt built by [OpenAIFunctionsAgent.create_prompt] around a
    [SystemMessage] (specification 3, PromptArtifact (b)). *)
Inductive BasePromptTemplate (D : Type) : Type :=
  | ZeroShotPrompt (p : PromptTemplate.t D)
  | FunctionsPrompt (system_message : string).
Arguments ZeroShotPrompt {D} p.
Arguments FunctionsPrompt {D} system_message.

(** [create_react_agent] lives outside the module. Before it builds the
    agent it inspects the prompt it is given and raises when the prompt lacks
    a variable the agent needs; which prompts it accepts is a parameter of
    the development. *)
Class ReactAgentCheck (D : Type) :=
  react_agent_check : list (Tool D) → PromptTemplate.t D → outcome unit.

Inductive AgentKind : Type := ReactAgent | OpenAIFunctionsAgent | OpenAIToolsAgent.

(** Modelled from the spec: [create_react_agent],
    [create_openai_functions_agent] and [create_openai_tools_agent] live
    outside the module; following the specification (6) they accept the
    language-model handle, the tools and the prompt and yield an agent. The
    two function-calling constructors ask of the prompt only the scratchpad
    placeholder, which [OpenAIFunctionsAgent.create_prompt] always supplies;
    [create_react_agent] checks its prompt first (see [ReactAgentCheck]). *)
Module Agent.
Record t (D : Type) : Type := mk {
  kind : AgentKind;
  llm : string;
  tools : list (Tool D);
  prompt : BasePromptTemplate D
}.
Arguments mk {D}.
Arguments kind {D}.
Arguments llm {D}.
Arguments tools {D}.
Arguments prompt {D}.
End Agent.

(** Modelled from the spec: [AgentExecutor.from_agent_and_tools] lives outside
    the module; following the specification (4.4, 6) it wraps the agent, the
    full tool list and the loop configuration, passed through unmodified. *)
Module AgentExecutor.
Record t (D : Type) : Type := mk {
  agent : Agent.t D;
  tools : list (Tool D);
  callback_manager : option string;
  verbose : bool;
  return_intermediate_steps : bool;
  max_iterations : option Z;
  max_execution_time : option Q;
  early_stopping_method : string;
  kwargs : gmap string string
}.
Arguments mk {D}.
Arguments agent {D}.
Arguments tools {D}.
Arguments callback_manager {D}.
Arguments verbose {D}.
Arguments return_intermediate_steps {D}.
Arguments max_iterations {D}.
Arguments max_execution_time {D}.
Arguments early_stopping_method {D}.
Arguments kwargs {D}.
End AgentExecutor.

(* ===================================================================== *)
(** ** Effects: a writer/exception monad *)
(* ===================================================================== *)

(** What an observer of one call can see besides its result. *)
Inductive Event (D : Type) : Type :=
  | SetDisplayOption
  | ToolCreated (locals : gmap string D)
  | AgentCreated (kind : AgentKind) (tools : list (Tool D)).
Arguments SetDisplayOption {D}.
Arguments ToolCreated {D} locals.
Arguments AgentCreated {D} kind tools.

Definition M (D A : Type) : Type := (list (Event D) * outcome A)%type.

Definition ret {D A} (a : A) : M D A := ([], Return a).
Definition raise {D A} (e : Exc) : M D A := ([], Raise e).
Definition emit {D} (ev : Event D) : M D unit := ([ev], Return tt).
Definition bind {D A B} (m : M D A) (k : A → M D B) : M D B :=
  match m with
  | (log, Raise e) => (log, Raise e)
  | (log, Return a) => let '(log', r) := k a in ((log ++ log')%list, r)
  end.
Definition lift {D A} (r : outcome A) : M D A := ([], r).

Declare Scope py_scope.
Delimit Scope py_scope with py.
Notation "x <~ m ;; k" := (bind m (λ x, k))
  (at level 100, m at next level, right associativity) : py_scope.
Notation "m ;;; k" := (bind m (λ _, k))
  (at level 100, right associativity) : py_scope.
Local Open Scope py_scope.

(** The part of the Python environment the module depends on: whether
    [import pandas] succeeds, and the built-in [str.format] applied to
    keyword arguments (it raises on a field it cannot resolve). *)
Class PyEnv := {
  pandas_importable : bool;
  str_format : string → list (string * string) → outcome string
}.

(** The templates imported from [pandas/prompt.py]. *)
Class PromptConstants := {
  FUNCTIONS_WITH_DF : string;
  FUNCTIONS_WITH_MULTI_DF : string;
  MULTI_DF_PREFIX : string;
  MULTI_DF_PREFIX_FUNCTIONS : string;
  PREFIX : string;
  PREFIX_FUNCTIONS : string;
  SUFFIX_NO_DF : string;
  SUFFIX_WITH_DF : string;
  SUFFIX_WITH_MULTI_DF : string
}.

(** The keyword parameters of [create_pandas_dataframe_agent]. *)
Record Options (D : Type) : Type := mkOptions {
  agent_type : string;
  callback_manager : option string;
  prefix : option string;
  suffix : option string;
  input_variables : option (list string);
  verbose : bool;
  return_intermediate_steps : bool;
  max_iterations : option Z;
  max_execution_time : option Q;
  early_stopping_method : string;
  agent_executor_kwargs : option (gmap string string);
  include_df_in_prompt : option bool;
  number_of_head_rows : Z;
  extra_tools : list (Tool D)
}.
Arguments mkOptions {D}.
Arguments agent_type {D}.
Arguments callback_manager {D}.
Arguments prefix {D}.
Arguments suffix {D}.
Arguments input_variables {D}.
Arguments verbose {D}.
Arguments return_intermediate_steps {D}.
Arguments max_iterations {D}.
Arguments max_execution_time {D}.
Arguments early_stopping_method {D}.
Arguments agent_executor_kwargs {D}.
Arguments include_df_in_prompt {D}.
Arguments number_of_head_rows {D}.
Arguments extra_tools {D}.

(** The values of [AgentType.ZERO_SHOT_REACT_DESCRIPTION] and
    [AgentType.OPENAI_FUNCTIONS]; [AgentType] is a string enumeration, so a
    member compares equal to its value (see the docstring of
    [create_pandas_dataframe_agent]). The specification calls the three
    protocols text-action-loop, function-call-legacy and
    function-call-modern, in this order. *)
Definition ZERO_SHOT_REACT_DESCRIPTION : string := "zero-shot-react-description".
Definition OPENAI_FUNCTIONS : string := "openai-functions".
Definition OPENAI_TOOLS : string := "openai-tools".

(** The defaults of the signature of [create_pandas_dataframe_agent]. *)
Definition default_options {D} : Options D := {|
  agent_type := ZERO_SHOT_REACT_DESCRIPTION;
  callback_manager := None;
  prefix := None;
  suffix := None;
  input_variables := None;
  verbose := false;
  return_intermediate_steps := false;
  max_iterations := Some 15;
  max_execution_time := None;
  early_stopping_method := "force";
  agent_executor_kwargs := None;
  include_df_in_prompt := Some true;
  number_of_head_rows := 5;
  extra_tools := []
|}.

(** The keywords the entry point passes explicitly to
    [AgentExecutor.from_agent_and_tools]. *)
Definition executor_keywords : list string :=
  ["agent"; "tools"; "callback_manager"; "verbose";
   "return_intermediate_steps"; "max_iterations"; "max_execution_time";
   "early_stopping_method"].

(* ===================================================================== *)
(** ** The module *)
(* ===================================================================== *)

Section Base.
Context {D : Type} `{!Dataset D} `{!PyEnv} `{!PromptConstants}
  `{!ReactAgentCheck D}.

(** [try: import pandas as pd; pd.set_option("display.max_columns", None)
    except ImportError: raise ImportError(...)]. *)
Definition import_pandas : M D unit :=
  if pandas_importable then emit SetDisplayOption else raise MissingDependency.

(** [PythonAstREPLTool(locals=df_locals)]. *)
Definition new_repl_tool (df_locals : gmap string D) : M D (Tool D) :=
  emit (ToolCreated df_locals) ;;; ret (PythonAstREPLTool df_locals).

(** [ZeroShotAgent.create_prompt(tools, prefix=..., suffix=...,
    input_variables=...)]. *)
Definition create_prompt (tools : list (Tool D)) (prefix suffix : string)
    (input_variables : list string) : PromptTemplate.t D :=
  PromptTemplate.mk tools prefix suffix input_variables ∅.

(** [create_openai_functions_agent(llm, tools, prompt)] and
    [create_openai_tools_agent(llm, tools, prompt)], by [kind]; also the last
    step of [create_react_agent]. *)
Definition create_agent (kind : AgentKind) (llm : string)
    (tools : list (Tool D)) (prompt : BasePromptTemplate D) : M D (Agent.t D) :=
  emit (AgentCreated kind tools) ;;; ret (Agent.mk kind llm tools prompt).

(** [create_react_agent(llm, tools, prompt)]: the agent is built only when
    the prompt passes the check. *)
Definition create_react_agent (llm : string) (tools : list (Tool D))
    (prompt : PromptTemplate.t D) : M D (Agent.t D) :=
  lift (react_agent_check tools prompt) ;;;
  create_agent ReactAgent llm tools (ZeroShotPrompt prompt).

(** [f"df{i + 1}"]. *)
Definition df_name (i : nat) : string := "df" +:+ pretty (i + 1)%nat.

(** [for i, dataframe in enumerate(dfs): df_locals[f"df{i + 1}"] = dataframe],
    started at index [i] with the dictionary built so far. *)
Fixpoint bind_locals (i : nat) (dfs : list D) (df_locals : gmap string D)
    : gmap string D :=
  match dfs with
  | [] => df_locals
  | dataframe :: rest => bind_locals (S i) rest (<[df_name i := dataframe]> df_locals)
  end.

(** [[d.head(number_of_head_rows).to_markdown() for d in dfs]]: the tables
    are rendered in list order, and the first one that raises ends the
    comprehension. *)
Fixpoint render_each (number_of_head_rows : Z) (dfs : list D)
    : outcome (list string) :=
  match dfs with
  | [] => Return []
  | d :: rest =>
      match to_markdown (head number_of_head_rows d) with
      | Raise e => Raise e
      | Return md =>
          match render_each number_of_head_rows rest with
          | Raise e => Raise e
          | Return mds => Return (md :: mds)
          end
      end
  end.

(** ["\n\n".join([d.head(number_of_head_rows).to_markdown() for d in dfs])]. *)
Definition render_heads (number_of_head_rows : Z) (dfs : list D)
    : outcome string :=
  match render_each number_of_head_rows dfs with
  | Raise e => Raise e
  | Return mds => Return (str_join blank_line mds)
  end.

Definition _get_multi_prompt (dfs : list D) (prefix suffix : option string)
    (input_variables : option (list string))
    (include_df_in_prompt : option bool) (number_of_head_rows : Z)
    (extra_tools : list (Tool D)) : M D (PromptTemplate.t D * list (Tool D)) :=
  let num_dfs := length dfs in
  let '(suffix_to_use, include_dfs_head) :=
    match suffix with
    | Some s => (s, true)
    | None =>
        if truthy include_df_in_prompt then (SUFFIX_WITH_MULTI_DF, true)
        else (SUFFIX_NO_DF, false)
    end in
  let input_variables :=
    match input_variables with
    | None =>
        (["input"; "agent_scratchpad"; "num_dfs"]
           ++ (if include_dfs_head then ["dfs_head"] else []))%list
    | Some l => l
    end in
  let prefix := default MULTI_DF_PREFIX prefix in
  let df_locals := bind_locals 0 dfs ∅ in
  repl <~ new_repl_tool df_locals ;;
  let tools := ([repl] ++ extra_tools)%list in
  let prompt := create_prompt tools prefix suffix_to_use input_variables in
  let partial_prompt := PromptTemplate.partial prompt ∅ in
  partial_prompt <~
    (if bool_decide ("dfs_head" ∈ input_variables) then
       dfs_head <~ lift (render_heads number_of_head_rows dfs) ;;
       ret (PromptTemplate.partial partial_prompt
              (<["dfs_head" := dfs_head]> {["num_dfs" := pretty num_dfs]}))
     else ret partial_prompt) ;;
  let partial_prompt :=
    if bool_decide ("num_dfs" ∈ input_variables) then
      PromptTemplate.partial partial_prompt {["num_dfs" := pretty num_dfs]}
    else partial_prompt in
  ret (partial_prompt, tools).

Definition _get_single_prompt (df : D) (prefix suffix : option string)
    (input_variables : option (list string))
    (include_df_in_prompt : option bool) (number_of_head_rows : Z)
    (extra_tools : list (Tool D)) : M D (PromptTemplate.t D * list (Tool D)) :=
  let '(suffix_to_use, include_df_head) :=
    match suffix with
    | Some s => (s, true)
    | None =>
        if truthy include_df_in_prompt then (SUFFIX_WITH_DF, true)
        else (SUFFIX_NO_DF, false)
    end in
  let input_variables :=
    match input_variables with
    | None =>
        (["input"; "agent_scratchpad"]
           ++ (if include_df_head then ["df_head"] else []))%list
    | Some l => l
    end in
  let prefix := default PREFIX prefix in
  repl <~ new_repl_tool {["df" := df]} ;;
  let tools := ([repl] ++ extra_tools)%list in
  let prompt := create_prompt tools prefix suffix_to_use input_variables in
  let partial_prompt := PromptTemplate.partial prompt ∅ in
  partial_prompt <~
    (if bool_decide ("df_head" ∈ input_variables) then
       df_head <~ lift (to_markdown (head number_of_head_rows df)) ;;
       ret (PromptTemplate.partial partial_prompt {["df_head" := df_head]})
     else ret partial_prompt) ;;
  ret (partial_prompt, tools).

(** [for item in df: if not isinstance(item, pd.DataFrame): raise
    ValueError(f"Expected pandas object, got {type(df)}")]; on success the
    items are the dataframes handed to the multi-dataframe helper. *)
Fixpoint check_items (df : PyObj D) (items : list (PyObj D)) : M D (list D) :=
  match items with
  | [] => ret []
  | PyDataFrame d :: rest => ds <~ check_items df rest ;; ret (d :: ds)
  | _ :: _ => raise (TypeMismatch df)
  end.

Definition _get_prompt_and_tools (df : PyObj D) (prefix suffix : option string)
    (input_variables : option (list string))
    (include_df_in_prompt : option bool) (number_of_head_rows : Z)
    (extra_tools : list (Tool D)) : M D (PromptTemplate.t D * list (Tool D)) :=
  import_pandas ;;;
  if is_not_None include_df_in_prompt && is_not_None suffix then
    raise ConfigurationConflict
  else
    match df with
    | PyList items =>
        dfs <~ check_items df items ;;
        _get_multi_prompt dfs prefix suffix input_variables
          include_df_in_prompt number_of_head_rows extra_tools
    | PyDataFrame d =>
        _get_single_prompt d prefix suffix input_variables
          include_df_in_prompt number_of_head_rows extra_tools
    | PyOther _ => raise (TypeMismatch df)
    end.

Definition _get_functions_single_prompt (df : D) (prefix suffix : option string)
    (include_df_in_prompt : option bool) (number_of_head_rows : Z)
    : M D (BasePromptTemplate D * list (Tool D)) :=
  suffix_to_use <~
    match suffix with
    | Some s =>
        if truthy include_df_in_prompt then
          (df_head <~ lift (to_markdown (head number_of_head_rows df)) ;;
           lift (str_format s [("df_head", df_head)]))
        else ret s
    | None =>
        if truthy include_df_in_prompt then
          (df_head <~ lift (to_markdown (head number_of_head_rows df)) ;;
           lift (str_format FUNCTIONS_WITH_DF [("df_head", df_head)]))
        else ret ""
    end ;;
  let prefix := default PREFIX_FUNCTIONS prefix in
  repl <~ new_repl_tool {["df" := df]} ;;
  let tools := [repl] in
  let system_message := prefix +:+ suffix_to_use in
  let prompt := FunctionsPrompt system_message in
  ret (prompt, tools).

Definition _get_functions_multi_prompt (dfs : list D)
    (prefix suffix : option string) (include_df_in_prompt : option bool)
    (number_of_head_rows : Z) : M D (BasePromptTemplate D * list (Tool D)) :=
  suffix_to_use <~
    match suffix with
    | Some s =>
        if truthy include_df_in_prompt then
          (dfs_head <~ lift (render_heads number_of_head_rows dfs) ;;
           lift (str_format s [("dfs_head", dfs_head)]))
        else ret s
    | None =>
        if truthy include_df_in_prompt then
          (dfs_head <~ lift (render_heads number_of_head_rows dfs) ;;
           lift (str_format FUNCTIONS_WITH_MULTI_DF [("dfs_head", dfs_head)]))
        else ret ""
    end ;;
  let prefix := default MULTI_DF_PREFIX_FUNCTIONS prefix in
  prefix <~ lift (str_format prefix [("num_dfs", pretty (length dfs))]) ;;
  let df_locals := bind_locals 0 dfs ∅ in
  repl <~ new_repl_tool df_locals ;;
  let tools := [repl] in
  let system_message := prefix +:+ suffix_to_use in
  let prompt := FunctionsPrompt system_message in
  ret (prompt, tools).

Definition _get_functions_prompt_and_tools (df : PyObj D)
    (prefix suffix : option string) (input_variables : option (list string))
    (include_df_in_prompt : option bool) (number_of_head_rows : Z)
    : M D (BasePromptTemplate D * list (Tool D)) :=
  import_pandas ;;;
  if is_not_None input_variables then raise UnsupportedOption
  else if is_not_None include_df_in_prompt && is_not_None suffix then
    raise ConfigurationConflict
  else
    match df with
    | PyList items =>
        dfs <~ check_items df items ;;
        _get_functions_multi_prompt dfs prefix suffix
          include_df_in_prompt number_of_head_rows
    | PyDataFrame d =>
        _get_functions_single_prompt d prefix suffix
          include_df_in_prompt number_of_head_rows
    | PyOther _ => raise (TypeMismatch df)
    end.

(** [AgentExecutor.from_agent_and_tools(agent=agent, tools=tools, ...,
    **(agent_executor_kwargs or {}))]: Python refuses a call in which the
    unpacked dictionary repeats a keyword that is also passed explicitly. *)
Definition from_agent_and_tools (agent : Agent.t D) (tools : list (Tool D))
    (o : Options D) : M D (AgentExecutor.t D) :=
  let kwargs := default ∅ (agent_executor_kwargs o) in
  if bool_decide (Exists (λ k, is_Some (kwargs !! k)) executor_keywords) then
    raise (TypeError "got multiple values for keyword argument")
  else
    ret (AgentExecutor.mk agent tools (callback_manager o) (verbose o)
           (return_intermediate_steps o) (max_iterations o)
           (max_execution_time o) (early_stopping_method o) kwargs).

Definition create_pandas_dataframe_agent (llm : string) (df : PyObj D)
    (o : Options D) : M D (AgentExecutor.t D) :=
  built <~
    (if decide (agent_type o = ZERO_SHOT_REACT_DESCRIPTION) then
       pt <~ _get_prompt_and_tools df (prefix o) (suffix o)
               (input_variables o) (include_df_in_prompt o)
               (number_of_head_rows o) (extra_tools o) ;;
       let '(prompt, tools) := pt in
       agent <~ create_react_agent llm tools prompt ;;
       ret (agent, tools)
     else if decide (agent_type o = OPENAI_FUNCTIONS) then
       pt <~ _get_functions_prompt_and_tools df (prefix o) (suffix o)
               (input_variables o) (include_df_in_prompt o)
               (number_of_head_rows o) ;;
       let '(prompt, base_tools) := pt in
       let tools := (base_tools ++ extra_tools o)%list in
       agent <~ create_agent OpenAIFunctionsAgent llm tools prompt ;;
       ret (agent, tools)
     else if decide (agent_type o = OPENAI_TOOLS) then
       pt <~ _get_functions_prompt_and_tools df (prefix o) (suffix o)
               (input_variables o) (include_df_in_prompt o)
               (number_of_head_rows o) ;;
       let '(prompt, base_tools) := pt in
       let tools := (base_tools ++ extra_tools o)%list in
       agent <~ create_agent OpenAIToolsAgent llm tools prompt ;;
       ret (agent, tools)
     else raise (UnsupportedProtocol (agent_type o))) ;;
  let '(agent, tools) := built in
  from_agent_and_tools agent tools o.

End Base.

(* ===================================================================== *)
(** ** Keyword arguments, observations, and the specification's readings *)
(* ===================================================================== *)

Section Observations.
Context {D : Type}.

(** Passing one keyword argument on top of the others. *)
Definition with_agent_type (a : string) (o : Options D) : Options D :=
  mkOptions a (callback_manager o) (prefix o) (suffix o) (input_variables o)
    (verbose o) (return_intermediate_steps o) (max_iterations o)
    (max_execution_time o) (early_stopping_method o)
    (agent_executor_kwargs o) (include_df_in_prompt o)
    (number_of_head_rows o) (extra_tools o).
Definition with_suffix (s : option string) (o : Options D) : Options D :=
  mkOptions (agent_type o) (callback_manager o) (prefix o) s
    (input_variables o) (verbose o) (return_intermediate_steps o)
    (max_iterations o) (max_execution_time o) (early_stopping_method o)
    (agent_executor_kwargs o) (include_df_in_prompt o)
    (number_of_head_rows o) (extra_tools o).
Definition with_input_variables (l : option (list string)) (o : Options D)
    : Options D :=
  mkOptions (agent_type o) (callback_manager o) (prefix o) (suffix o) l
    (verbose o) (return_intermediate_steps o) (max_iterations o)
    (max_execution_time o) (early_stopping_method o)
    (agent_executor_kwargs o) (include_df_in_prompt o)
    (number_of_head_rows o) (extra_tools o).
Definition with_include_df_in_prompt (b : option bool) (o : Options D)
    : Options D :=
  mkOptions (agent_type o) (callback_manager o) (prefix o) (suffix o)
    (input_variables o) (verbose o) (return_intermediate_steps o)
    (max_iterations o) (max_execution_time o) (early_stopping_method o)
    (agent_executor_kwargs o) b (number_of_head_rows o) (extra_tools o).
Definition with_extra_tools (ts : list (Tool D)) (o : Options D) : Options D :=
  mkOptions (agent_type o) (callback_manager o) (prefix o) (suffix o)
    (input_variables o) (verbose o) (return_intermediate_steps o)
    (max_iterations o) (max_execution_time o) (early_stopping_method o)
    (agent_executor_kwargs o) (include_df_in_prompt o)
    (number_of_head_rows o) ts.

(** The three protocols the entry point dispatches on. *)
Definition known_protocol (a : string) : Prop :=
  a = ZERO_SHOT_REACT_DESCRIPTION ∨ a = OPENAI_FUNCTIONS ∨ a = OPENAI_TOOLS.
Definition function_call_protocol (a : string) : Prop :=
  a = OPENAI_FUNCTIONS ∨ a = OPENAI_TOOLS.

(** The unpacked executor keywords repeat none of the explicit ones. *)
Definition no_keyword_clash (o : Options D) : Prop :=
  Forall (λ k, default ∅ (agent_executor_kwargs o) !! k = None)
    executor_keywords.

(** The variable bindings of the execution tool at the head of the
    executor's tool list. *)
Definition executor_locals (ex : AgentExecutor.t D) : option (gmap string D) :=
  match AgentExecutor.tools ex with
  | PythonAstREPLTool df_locals :: _ => Some df_locals
  | _ => None
  end.

(** The prompt the executor's agent was built with. *)
Definition executor_prompt (ex : AgentExecutor.t D) : BasePromptTemplate D :=
  Agent.prompt (AgentExecutor.agent ex).

(** No tool and no agent was constructed during a call. *)
Definition nothing_constructed (log : list (Event D)) : Prop :=
  Forall (λ ev, ev = SetDisplayOption) log.

(** Telling a returned result from a raised exception. *)
Definition returned {A} (m : M D A) : bool :=
  match m.2 with Return _ => true | Raise _ => false end.

(** [needle in haystack] on strings. *)
Fixpoint occurs (needle haystack : string) : bool :=
  String.prefix needle haystack ||
  match haystack with
  | EmptyString => false
  | String _ rest => occurs needle rest
  end.

(** Whether the text-action helpers decide to include the preview: the
    value of their local [include_df_head] / [include_dfs_head]. *)
Definition preview_forced (s : option string) (inc : option bool) : bool :=
  is_not_None s || truthy inc.

(** The specification's DatasetSet of a dataset argument: a bare dataset
    is the one-element set, a collection of datasets is itself. *)
Fixpoint dataframes_of (items : list (PyObj D)) : option (list D) :=
  match items with
  | [] => Some []
  | PyDataFrame d :: rest => cons d <$> dataframes_of rest
  | _ :: _ => None
  end.
Definition dataset_set (df : PyObj D) : option (list D) :=
  match df with
  | PyDataFrame d => Some [d]
  | PyList items => dataframes_of items
  | PyOther _ => None
  end.

(** The specification's binding rule (4.2), by cardinality alone:
    one dataset is bound to [df], [N > 1] datasets to [df1] .. [dfN]. *)
Definition spec_bindings (ds : list D) : gmap string D :=
  match ds with
  | [d] => {["df" := d]}
  | _ => bind_locals 0 ds ∅
  end.

(** The specification's default input-variable list (4.3): the two base
    names, extended only when the preview is included. *)
Definition spec_input_variables (multi preview : bool) : list string :=
  (["input"; "agent_scratchpad"]
     ++ (if preview then
           if multi then ["num_dfs"; "dfs_head"] else ["df_head"]
         else []))%list.

(** Reading a legacy function-calling result as a tool-calling one: only the
    kind of the agent changes. *)
Definition as_tools_kind (k : AgentKind) : AgentKind :=
  match k with
  | OpenAIFunctionsAgent => OpenAIToolsAgent
  | _ => k
  end.
Definition as_tools_event (ev : Event D) : Event D :=
  match ev with
  | AgentCreated k ts => AgentCreated (as_tools_kind k) ts
  | _ => ev
  end.
Definition as_tools_executor (ex : AgentExecutor.t D) : AgentExecutor.t D :=
  let a := AgentExecutor.agent ex in
  AgentExecutor.mk
    (Agent.mk (as_tools_kind (Agent.kind a)) (Agent.llm a) (Agent.tools a)
       (Agent.prompt a))
    (AgentExecutor.tools ex) (AgentExecutor.callback_manager ex)
    (AgentExecutor.verbose ex) (AgentExecutor.return_intermediate_steps ex)
    (AgentExecutor.max_iterations ex) (AgentExecutor.max_execution_time ex)
    (AgentExecutor.early_stopping_method ex) (AgentExecutor.kwargs ex).
Definition as_tools_call (m : M D (AgentExecutor.t D)) : M D (AgentExecutor.t D) :=
  (as_tools_event <$> m.1,
   match m.2 with
   | Raise e => Raise e
   | Return ex => Return (as_tools_executor ex)
   end).

(** Passing the [prefix] keyword on top of the others. *)
Definition with_prefix (p : option string) (o : Options D) : Options D :=
  mkOptions (agent_type o) (callback_manager o) p (suffix o)
    (input_variables o) (verbose o) (return_intermediate_steps o)
    (max_iterations o) (max_execution_time o) (early_stopping_method o)
    (agent_executor_kwargs o) (include_df_in_prompt o)
    (number_of_head_rows o) (extra_tools o).

(** Passing the [agent_executor_kwargs] keyword on top of the others. *)
Definition with_agent_executor_kwargs (kw : option (gmap string string))
    (o : Options D) : Options D :=
  mkOptions (agent_type o) (callback_manager o) (prefix o) (suffix o)
    (input_variables o) (verbose o) (return_intermediate_steps o)
    (max_iterations o) (max_execution_time o) (early_stopping_method o)
    kw (include_df_in_prompt o) (number_of_head_rows o) (extra_tools o).

(** The input-variable list the text-action helpers settle on: the
    caller's list when one is given, and otherwise the base names, [num_dfs]
    for a list of dataframes, and the preview slot when the preview is
    included. *)
Definition resolved_input_variables (multi : bool) (s : option string)
    (inc : option bool) (iv : option (list string)) : list string :=
  match iv with
  | Some l => l
  | None =>
      if multi then
        (["input"; "agent_scratchpad"; "num_dfs"]
           ++ (if preview_forced s inc then ["dfs_head"] else []))%list
      else
        (["input"; "agent_scratchpad"]
           ++ (if preview_forced s inc then ["df_head"] else []))%list
  end.

(** [mds] are the rendered first [n] rows of the dataframes [dfs], one text
    per dataframe, in order. *)
Definition rendered `{!Dataset D} (n : Z) (dfs : list D) (mds : list string)
    : Prop :=
  Forall2 (λ d md, to_markdown (head n d) = Return md) dfs mds.

(** The last step of the entry point, after the agent was constructed. *)
Definition finish (kind : AgentKind) (llm : string) (o : Options D)
    (l : list (Event D)) (prompt : BasePromptTemplate D) (tools : list (Tool D))
    : M D (AgentExecutor.t D) :=
  let r := from_agent_and_tools (Agent.mk kind llm tools prompt) tools o in
  ((l ++ [AgentCreated kind tools])%list, r.2).

End Observations.

(* ===================================================================== *)
(** ** The helpers' results, written out *)
(* ===================================================================== *)

Section ClosedForms.
Context {D : Type} `{!Dataset D} `{!PyEnv} `{!PromptConstants}.

(** The suffix a function-call helper settles on, for a bare dataframe and
    for a list: the caller's as it is, the built-in one with the rendered
    preview substituted, or nothing. *)
Definition functions_single_suffix (d : D) (s : option string)
    (inc : option bool) (n : Z) : outcome string :=
  match s with
  | Some s =>
      if truthy inc then
        match to_markdown (head n d) with
        | Raise e => Raise e
        | Return md => str_format s [("df_head", md)]
        end
      else Return s
  | None =>
      if truthy inc then
        match to_markdown (head n d) with
        | Raise e => Raise e
        | Return md => str_format FUNCTIONS_WITH_DF [("df_head", md)]
        end
      else Return ""
  end.

Definition functions_multi_suffix (dfs : list D) (s : option string)
    (inc : option bool) (n : Z) : outcome string :=
  match s with
  | Some s =>
      if truthy inc then
        match render_heads n dfs with
        | Raise e => Raise e
        | Return h => str_format s [("dfs_head", h)]
        end
      else Return s
  | None =>
      if truthy inc then
        match render_heads n dfs with
        | Raise e => Raise e
        | Return h => str_format FUNCTIONS_WITH_MULTI_DF [("dfs_head", h)]
        end
      else Return ""
  end.

(** The prompt of the single-dataframe text-action helper, given the slots
    it has filled in advance. *)
Definition single_prompt (d : D) (p s : option string)
    (iv : option (list string)) (inc : option bool) (extra : list (Tool D))
    (pv : gmap string string) : PromptTemplate.t D :=
  PromptTemplate.mk (PythonAstREPLTool {["df" := d]} :: extra)
    (default PREFIX p)
    (match s with
     | Some s => s
     | None => if truthy inc then SUFFIX_WITH_DF else SUFFIX_NO_DF
     end)
    (resolved_input_variables false s inc iv) pv.

(** The same for the multi-dataframe helper. *)
Definition multi_prompt (dfs : list D) (p s : option string)
    (iv : option (list string)) (inc : option bool) (extra : list (Tool D))
    (pv : gmap string string) : PromptTemplate.t D :=
  PromptTemplate.mk (PythonAstREPLTool (bind_locals 0 dfs ∅) :: extra)
    (default MULTI_DF_PREFIX p)
    (match s with
     | Some s => s
     | None => if truthy inc then SUFFIX_WITH_MULTI_DF else SUFFIX_NO_DF
     end)
    (resolved_input_variables true s inc iv) pv.

(** The slots the multi-dataframe helper fills in advance, given the joined
    previews when it rendered them. *)
Definition multi_partial_variables (ivs : list string) (count : string)
    (dfs_head : option string) : gmap string string :=
  let heads : gmap string string :=
    match dfs_head with
    | Some h => <["dfs_head" := h]> {["num_dfs" := count]}
    | None => ∅
    end in
  if bool_decide ("num_dfs" ∈ ivs) then {["num_dfs" := count]} ∪ heads
  else heads.

End ClosedForms.

(* ===================================================================== *)
(** ** A concrete environment for evaluating the module *)
(* ===================================================================== *)

Module Sample.

(** A table given by its rendered rows. [head n] keeps the first [n] rows,
    and all but the last [-n] rows for a negative [n], as pandas does. *)
Definition Table : Type := list string.

Definition table_head (n : Z) (t : Table) : Table :=
  if (0 <=? n)%Z then take (Z.to_nat n) t
  else take (length t - Z.to_nat (- n))%nat t.

Definition newline : string := String (Ascii.ascii_of_nat 10) "".

(** Rendering a table: its rows, one per line. *)
Definition table_markdown (t : Table) : string := str_join newline t.

#[export] Instance table_dataset : Dataset Table := {|
  head := table_head;
  to_markdown := λ t, Return (table_markdown t)
|}.

(** The same tables in an interpreter that cannot render them. *)
Definition table_dataset_unrendered : Dataset Table := {|
  head := table_head;
  to_markdown := λ _, Raise (ImportError "Missing optional dependency 'tabulate'.")
|}.

Fixpoint kw_lookup (name : string) (kw : list (string * string)) : option string :=
  match kw with
  | [] => None
  | (k, v) :: rest => if decide (k = name) then Some v else kw_lookup name rest
  end.

Definition prepend (p : string) (r : outcome string) : outcome string :=
  match r with
  | Raise e => Raise e
  | Return s => Return (p +:+ s)
  end.

(** [str.format] with keyword arguments [kw], on templates whose replacement fields are plain
    keyword names; [{{] and [}}] are the escaped braces. [field] holds the
    name of the replacement field being read, if any. *)
Fixpoint format_go (kw : list (string * string)) (field : option string)
    (template : string) : outcome string :=
  match template with
  | EmptyString =>
      match field with
      | None => Return ""
      | Some _ => Raise (ValueError "expected '}' before end of string")
      end
  | String c rest =>
      match field with
      | None =>
          if decide (c = "{"%char) then
            match rest with
            | String "{"%char rest' => prepend "{" (format_go kw None rest')
            | _ => format_go kw (Some "") rest
            end
          else if decide (c = "}"%char) then
            match rest with
            | String "}"%char rest' => prepend "}" (format_go kw None rest')
            | _ => Raise (ValueError "Single '}' encountered in format string")
            end
          else prepend (String c "") (format_go kw None rest)
      | Some name =>
          if decide (c = "}"%char) then
            match kw_lookup name kw with
            | Some v => prepend v (format_go kw None rest)
            | None => Raise (KeyError name)
            end
          else format_go kw (Some (name +:+ String c "")) rest
      end
  end.

Definition format (template : string) (kw : list (string * string))
    : outcome string :=
  format_go kw None template.

#[export] Instance env : PyEnv := {|
  pandas_importable := true;
  str_format := format
|}.

(** The same interpreter without the pandas package. *)
Definition env_no_pandas : PyEnv := {|
  pandas_importable := false;
  str_format := format
|}.

(** Short stand-ins for the templates of [pandas/prompt.py], with the
    replacement fields the module fills. *)
#[export] Instance constants : PromptConstants := {|
  FUNCTIONS_WITH_DF := "Head of df: {df_head}";
  FUNCTIONS_WITH_MULTI_DF := "Heads of dfs: {dfs_head}";
  MULTI_DF_PREFIX := "You have {num_dfs} dataframes df1, df2, etc.";
  MULTI_DF_PREFIX_FUNCTIONS := "You have {num_dfs} dataframes df1, df2, etc. ";
  PREFIX := "You have a dataframe df.";
  PREFIX_FUNCTIONS := "You have a dataframe df. ";
  SUFFIX_NO_DF := "Question: {input} {agent_scratchpad}";
  SUFFIX_WITH_DF := "Head: {df_head} Question: {input} {agent_scratchpad}";
  SUFFIX_WITH_MULTI_DF := "Heads: {dfs_head} Question: {input} {agent_scratchpad}"
|}.

Definition ds0 : Table := ["a|b"; "1|2"; "3|4"].
Definition ds1 : Table := ["x"; "7"].
Definition search : Tool Table := BaseTool "search".

(** A stand-in for the check of [create_react_agent]: a prompt template
    takes its variables from its text, and each of the variables [tools],
    [tool_names] and [agent_scratchpad] has to be named by a replacement
    field of the prefix or the suffix, or be pre-filled in the prompt. The
    built-in templates above name neither [tools] nor [tool_names]. *)
Definition required_variables : list string :=
  ["tools"; "tool_names"; "agent_scratchpad"].

Definition has_variable (pt : PromptTemplate.t Table) (v : string) : bool :=
  bool_decide (is_Some (PromptTemplate.partial_variables pt !! v))
  || occurs ("{" +:+ v +:+ "}")
       (PromptTemplate.prefix pt +:+ PromptTemplate.suffix pt).

#[export] Instance react_check : ReactAgentCheck Table := λ _ pt,
  if forallb (has_variable pt) required_variables then Return tt
  else Raise (ValueError "Prompt missing required variables").

(** A caller prefix that names the variables the react agent asks for
    besides the scratchpad, which the built-in suffixes name. *)
Definition react_prefix : string :=
  "You have dataframes. Tools: {tools} Names: {tool_names}".

(** The default options with that prefix: a text-action call the react agent
    accepts. *)
Definition react_options : Options Table :=
  with_prefix (Some react_prefix) default_options.

End Sample.

(* ===================================================================== *)
(** ** Properties *)
(* ===================================================================== *)

Section MonadFacts.
Context {D : Type}.

Lemma bind_Return_inv {A B} (m : M D A) (k : A → M D B) log b :
  bind m k = (log, Return b) →
  ∃ l1 a l2, m = (l1, Return a) ∧ k a = (l2, Return b) ∧ log = (l1 ++ l2)%list.
Proof.
  destruct m as [l1 [e|a]]; simpl; [discriminate|].
  destruct (k a) as [l2 r] eqn:Hk. intros [= <- ->]. by exists l1, a, l2.
Qed.

End MonadFacts.

Section NamingFacts.
Context {D : Type}.

Lemma df_name_inj : Inj (=) (=) df_name.
Proof.
  intros i j Hij. unfold df_name in Hij. simpl in Hij.
  injection Hij as Hij.
  assert (i + 1 = j + 1)%nat by (by apply (inj (pretty (A:=nat)))). lia.
Qed.

Lemma df_name_not_df i : df_name i ≠ "df".
Proof.
  unfold df_name. simpl. intros [= Hp].
  change (pretty (i + 1)%nat = "") in Hp.
  assert (String.length (pretty (i + 1)%nat) = 0%nat) as Hlen by (by rewrite Hp).
  revert Hlen. unfold pretty, pretty_nat, pretty, pretty_N.
  case_decide as H0; [lia|].
  rewrite pretty_N_go_step by lia. intros Hlen.
  assert (∀ x s, (String.length s ≤ String.length (pretty_N_go x s))%nat) as Hmono.
  { intros x. induction (N.lt_wf_0 x) as [x _ IH]. intros s.
    destruct (decide (x = 0)%N) as [->|]; [by rewrite pretty_N_go_0|].
    rewrite pretty_N_go_step by lia.
    etrans; [|apply IH; apply N.div_lt; lia]. simpl. lia. }
  specialize (Hmono (N.of_nat (i + 1) `div` 10)%N
    (String (pretty_N_char (N.of_nat (i + 1) `mod` 10)) "")).
  simpl in Hmono. lia.
Qed.

Lemma bind_locals_other (dfs : list D) i m k :
  (∀ j, (j < length dfs)%nat → k ≠ df_name (i + j)) →
  bind_locals i dfs m !! k = m !! k.
Proof.
  revert i m. induction dfs as [|d dfs IH]; intros i m Hk; [done|].
  simpl. rewrite IH.
  - apply lookup_insert_ne. intros Heq. apply (Hk 0%nat); simpl; [lia|].
    by rewrite Nat.add_0_r.
  - intros j Hj. replace (S i + j)%nat with (i + S j)%nat by lia.
    apply Hk. simpl. lia.
Qed.

Lemma bind_locals_name (dfs : list D) i m j d :
  dfs !! j = Some d → bind_locals i dfs m !! df_name (i + j) = Some d.
Proof.
  revert i m j. induction dfs as [|d' dfs IH]; intros i m j Hj; [done|].
  destruct j as [|j]; simpl in *.
  - injection Hj as ->. rewrite bind_locals_other.
    + rewrite Nat.add_0_r. apply lookup_insert_eq.
    + intros j _ Heq. apply df_name_inj in Heq. lia.
  - replace (i + S j)%nat with (S i + j)%nat by lia. by apply IH.
Qed.

Lemma bind_locals_inv (dfs : list D) i m k d :
  bind_locals i dfs m !! k = Some d →
  (∃ j, k = df_name (i + j) ∧ dfs !! j = Some d) ∨ m !! k = Some d.
Proof.
  revert i m. induction dfs as [|d' dfs IH]; intros i m Hk; [by right|].
  simpl in Hk. apply IH in Hk as [(j & -> & Hj)|Hk].
  - left. exists (S j). split; [f_equal; lia|done].
  - rewrite lookup_insert in Hk. case_decide as Hi; [|by right].
    left. exists 0%nat. rewrite Nat.add_0_r. by simplify_eq.
Qed.

(** The dictionary built by the loop binds [df1] .. [dfN], in order, and
    nothing else. *)
Lemma bind_locals_lookup (dfs : list D) k d :
  bind_locals 0 dfs ∅ !! k = Some d ↔ ∃ j, k = df_name j ∧ dfs !! j = Some d.
Proof.
  split.
  - intros Hk. apply bind_locals_inv in Hk as [Hk|Hk]; [done|].
    by rewrite lookup_empty in Hk.
  - intros (j & -> & Hj). by apply (bind_locals_name dfs 0 ∅ j d).
Qed.

Lemma bind_locals_never_df (dfs : list D) :
  bind_locals 0 dfs ∅ !! "df" = None.
Proof.
  rewrite bind_locals_other; [apply lookup_empty|].
  intros j _ Heq. by apply (df_name_not_df (0 + j)).
Qed.

Lemma bind_locals_dom (dfs : list D) :
  dom (bind_locals 0 dfs ∅) = list_to_set (df_name <$> seq 0 (length dfs)).
Proof.
  apply set_eq. intros k. rewrite elem_of_dom, elem_of_list_to_set, list_elem_of_fmap.
  split.
  - intros [d Hd]. apply bind_locals_lookup in Hd as (j & -> & Hj).
    exists j. split; [done|]. apply elem_of_seq. apply lookup_lt_Some in Hj. lia.
  - intros (j & -> & Hj). apply elem_of_seq in Hj.
    destruct (lookup_lt_is_Some_2 dfs j) as [d Hd]; [lia|].
    exists d. apply bind_locals_lookup. by exists j.
Qed.

End NamingFacts.

Section RenderingFacts.
Context {D : Type} `{!Dataset D}.

(** The comprehension returns the texts of all the tables, in order, exactly
    when every table renders. *)
Lemma render_each_Return (n : Z) (dfs : list D) mds :
  render_each n dfs = Return mds ↔ rendered n dfs mds.
Proof.
  unfold rendered. revert mds.
  induction dfs as [|d dfs IH]; intros mds; simpl.
  - split; [intros [= <-]; constructor|]. by inversion 1.
  - destruct (to_markdown (head n d)) as [e|md] eqn:Hd.
    + split; [done|]. inversion 1; congruence.
    + destruct (render_each n dfs) as [e|mds'] eqn:Hr.
      * split; [done|]. inversion 1 as [|? ? ? ? _ Hrest]; subst.
        by apply IH in Hrest.
      * split.
        -- intros [= <-]. constructor; [done|]. by apply IH.
        -- inversion 1 as [|? md' ? mds'' Hmd Hrest]; subst.
           apply IH in Hrest. congruence.
Qed.

Lemma render_heads_Return (n : Z) (dfs : list D) h :
  render_heads n dfs = Return h ↔
  ∃ mds, rendered n dfs mds ∧ h = str_join blank_line mds.
Proof.
  unfold render_heads. split.
  - destruct (render_each n dfs) as [e|mds] eqn:Hr; [done|].
    intros [= <-]. exists mds. split; [|done]. by apply render_each_Return.
  - intros (mds & Hr & ->). apply render_each_Return in Hr. by rewrite Hr.
Qed.

Lemma render_heads_nil (n : Z) : render_heads n ([] : list D) = Return "".
Proof. done. Qed.

End RenderingFacts.

Section HelperFacts.
Context {D : Type} `{!Dataset D} `{!PyEnv} `{!PromptConstants}.

(** The validation loop over a list either accepts it, when every item is
    a dataframe, or raises the type error; it has no effect of its own. *)
Lemma check_items_spec (df : PyObj D) items :
  (∃ dfs, items = PyDataFrame <$> dfs ∧ check_items df items = ([], Return dfs))
  ∨ check_items df items = ([], Raise (TypeMismatch df)).
Proof.
  induction items as [|item items IH]; simpl; [left; by exists nil|].
  destruct item as [d|l|c]; [|by right..].
  destruct IH as [(dfs & -> & ->) | -> ]; [left|by right].
  by exists (d :: dfs).
Qed.

Lemma check_items_dataframes (df : PyObj D) dfs :
  check_items df (PyDataFrame <$> dfs) = ([], Return dfs).
Proof.
  induction dfs as [|d dfs IH]; [done|].
  rewrite fmap_cons. cbn [check_items]. by rewrite IH.
Qed.

(** The function-call helpers in closed form: every substitution comes
    before the tool is constructed. *)
Lemma get_functions_single_prompt_eq (d : D) p s inc n :
  _get_functions_single_prompt d p s inc n
  = match functions_single_suffix d s inc n with
    | Raise e => ([], Raise e)
    | Return sfx =>
        ([ToolCreated {["df" := d]}],
         Return (FunctionsPrompt (default PREFIX_FUNCTIONS p +:+ sfx),
                 [PythonAstREPLTool {["df" := d]}]))
    end.
Proof.
  unfold _get_functions_single_prompt, functions_single_suffix.
  destruct s as [s|], (truthy inc); simpl; unfold lift; simpl;
    try done; destruct (to_markdown _) as [e|md]; simpl; try done;
    by destruct (str_format _ _).
Qed.

Lemma get_functions_multi_prompt_eq (dfs : list D) p s inc n :
  _get_functions_multi_prompt dfs p s inc n
  = match functions_multi_suffix dfs s inc n with
    | Raise e => ([], Raise e)
    | Return sfx =>
        match str_format (default MULTI_DF_PREFIX_FUNCTIONS p)
                [("num_dfs", pretty (length dfs))] with
        | Raise e => ([], Raise e)
        | Return pre =>
            ([ToolCreated (bind_locals 0 dfs ∅)],
             Return (FunctionsPrompt (pre +:+ sfx),
                     [PythonAstREPLTool (bind_locals 0 dfs ∅)]))
        end
    end.
Proof.
  unfold _get_functions_multi_prompt, functions_multi_suffix.
  destruct s as [s|], (truthy inc); simpl; unfold lift; simpl;
    try (by destruct (str_format _ _));
    destruct (render_heads _ _) as [e|h]; simpl; try done;
    destruct (str_format _ [("dfs_head", h)]); simpl; try done;
    by destruct (str_format _ _).
Qed.

Lemma get_functions_single_prompt_Return d p s inc n log r :
  _get_functions_single_prompt d p s inc n = (log, Return r) →
  log = [ToolCreated {["df" := d]}] ∧
  ∃ msg, r = (FunctionsPrompt msg, [PythonAstREPLTool {["df" := d]}]).
Proof.
  rewrite get_functions_single_prompt_eq.
  destruct (functions_single_suffix d s inc n); [done|].
  intros [= <- <-]. eauto.
Qed.

Lemma get_functions_multi_prompt_Return dfs p s inc n log r :
  _get_functions_multi_prompt dfs p s inc n = (log, Return r) →
  log = [ToolCreated (bind_locals 0 dfs ∅)] ∧
  ∃ msg, r = (FunctionsPrompt msg, [PythonAstREPLTool (bind_locals 0 dfs ∅)]).
Proof.
  rewrite get_functions_multi_prompt_eq.
  destruct (functions_multi_suffix dfs s inc n); [done|].
  destruct (str_format _ _); [done|]. intros [= <- <-]. eauto.
Qed.

End HelperFacts.

Section TextHelperFacts.
Context {D : Type} `{!Dataset D} `{!PyEnv} `{!PromptConstants}.

(** The single-dataframe helper in closed form: the tool is constructed
    first, and the table is rendered only when [df_head] is among the
    input variables. *)
Lemma get_single_prompt_eq (d : D) p s iv inc n extra :
  _get_single_prompt d p s iv inc n extra
  = let tools := PythonAstREPLTool {["df" := d]} :: extra in
    if bool_decide ("df_head" ∈ resolved_input_variables false s inc iv) then
      match to_markdown (head n d) with
      | Raise e => ([ToolCreated {["df" := d]}], Raise e)
      | Return md =>
          ([ToolCreated {["df" := d]}],
           Return (single_prompt d p s iv inc extra {["df_head" := md]}, tools))
      end
    else
      ([ToolCreated {["df" := d]}],
       Return (single_prompt d p s iv inc extra ∅, tools)).
Proof.
  unfold _get_single_prompt, single_prompt, resolved_input_variables,
    preview_forced, PromptTemplate.partial, create_prompt.
  destruct s as [s|], (truthy inc), iv as [l|]; simpl;
    repeat case_bool_decide; simpl; unfold lift; simpl;
    try destruct (to_markdown _); simpl;
    by rewrite ?(left_id_L ∅ (∪)), ?(right_id_L ∅ (∪)).
Qed.

(** The same for the multi-dataframe helper. *)
Lemma get_multi_prompt_eq (dfs : list D) p s iv inc n extra :
  _get_multi_prompt dfs p s iv inc n extra
  = let tools := PythonAstREPLTool (bind_locals 0 dfs ∅) :: extra in
    let ivs := resolved_input_variables true s inc iv in
    let count := pretty (length dfs) in
    if bool_decide ("dfs_head" ∈ ivs) then
      match render_heads n dfs with
      | Raise e => ([ToolCreated (bind_locals 0 dfs ∅)], Raise e)
      | Return h =>
          ([ToolCreated (bind_locals 0 dfs ∅)],
           Return (multi_prompt dfs p s iv inc extra
                     (multi_partial_variables ivs count (Some h)), tools))
      end
    else
      ([ToolCreated (bind_locals 0 dfs ∅)],
       Return (multi_prompt dfs p s iv inc extra
                 (multi_partial_variables ivs count None), tools)).
Proof.
  unfold _get_multi_prompt, multi_prompt, multi_partial_variables,
    resolved_input_variables, preview_forced, PromptTemplate.partial,
    create_prompt.
  destruct s as [s|], (truthy inc), iv as [l|]; simpl;
    repeat case_bool_decide; simpl; unfold lift; simpl;
    try destruct (render_heads _ _); simpl;
    by rewrite ?(left_id_L ∅ (∪)), ?(right_id_L ∅ (∪)).
Qed.

(** What the single-dataframe helper returned, field by field. *)
Lemma get_single_prompt_Return (d : D) p s iv inc n extra l pt tools :
  _get_single_prompt d p s iv inc n extra = (l, Return (pt, tools)) →
  l = [ToolCreated {["df" := d]}] ∧
  tools = PythonAstREPLTool {["df" := d]} :: extra ∧
  ∃ pv, pt = single_prompt d p s iv inc extra pv ∧
    if bool_decide ("df_head" ∈ resolved_input_variables false s inc iv)
    then ∃ md, to_markdown (head n d) = Return md ∧ pv = {["df_head" := md]}
    else pv = ∅.
Proof.
  rewrite get_single_prompt_eq. simpl. case_bool_decide as Hin.
  - destruct (to_markdown (head n d)) as [e|md] eqn:Hd; [done|].
    intros [= <- <- <-]. repeat (split; [done|]).
    eexists. split; [done|]. eauto.
  - intros [= <- <- <-]. repeat (split; [done|]).
    by eexists.
Qed.

(** What the multi-dataframe helper returned, field by field. *)
Lemma get_multi_prompt_Return (dfs : list D) p s iv inc n extra l pt tools :
  _get_multi_prompt dfs p s iv inc n extra = (l, Return (pt, tools)) →
  l = [ToolCreated (bind_locals 0 dfs ∅)] ∧
  tools = PythonAstREPLTool (bind_locals 0 dfs ∅) :: extra ∧
  let ivs := resolved_input_variables true s inc iv in
  ∃ dfs_head,
    pt = multi_prompt dfs p s iv inc extra
           (multi_partial_variables ivs (pretty (length dfs)) dfs_head) ∧
    if bool_decide ("dfs_head" ∈ ivs)
    then ∃ mds, rendered n dfs mds ∧ dfs_head = Some (str_join blank_line mds)
    else dfs_head = None.
Proof.
  rewrite get_multi_prompt_eq. simpl. case_bool_decide as Hin.
  - destruct (render_heads n dfs) as [e|h] eqn:Hd; [done|].
    intros [= <- <- <-]. repeat (split; [done|]).
    exists (Some h). split; [done|].
    apply render_heads_Return in Hd as (mds & Hmds & ->). eauto.
  - intros [= <- <- <-]. repeat (split; [done|]).
    by exists None.
Qed.

Lemma multi_partial_variables_dfs_head ivs count dfs_head :
  multi_partial_variables ivs count dfs_head !! "dfs_head" = dfs_head.
Proof.
  unfold multi_partial_variables.
  destruct dfs_head; case_bool_decide; by simplify_map_eq.
Qed.

Lemma multi_partial_variables_num_dfs ivs count dfs_head :
  multi_partial_variables ivs count dfs_head !! "num_dfs"
  = if bool_decide ("num_dfs" ∈ ivs) || is_not_None dfs_head
    then Some count else None.
Proof.
  unfold multi_partial_variables.
  destruct dfs_head; case_bool_decide; by simplify_map_eq.
Qed.

Lemma multi_partial_variables_other ivs count dfs_head k :
  k ≠ "num_dfs" → k ≠ "dfs_head" →
  multi_partial_variables ivs count dfs_head !! k = None.
Proof.
  intros Hn Hh. unfold multi_partial_variables.
  destruct dfs_head; case_bool_decide;
    rewrite ?lookup_union, ?lookup_insert_ne, ?lookup_singleton_ne,
      ?lookup_empty by done; done.
Qed.

End TextHelperFacts.

Section EntryPointFacts.
Context {D : Type} `{!Dataset D} `{!PyEnv} `{!PromptConstants}
  `{!ReactAgentCheck D}.

Lemma from_agent_and_tools_Return (agent : Agent.t D) tools o log ex :
  from_agent_and_tools agent tools o = (log, Return ex) →
  log = [] ∧ AgentExecutor.agent ex = agent ∧ AgentExecutor.tools ex = tools.
Proof.
  unfold from_agent_and_tools. case_bool_decide; [discriminate|].
  by intros [= <- <-].
Qed.

Lemma from_agent_and_tools_ok (agent : Agent.t D) tools o :
  no_keyword_clash o →
  ∃ ex, from_agent_and_tools agent tools o = ([], Return ex)
        ∧ AgentExecutor.agent ex = agent ∧ AgentExecutor.tools ex = tools.
Proof.
  intros Hno. unfold from_agent_and_tools. case_bool_decide as Hex; [|eauto].
  exfalso. apply Exists_exists in Hex as (k & Hk & [v Hv]).
  unfold no_keyword_clash in Hno. rewrite Forall_forall in Hno.
  specialize (Hno k Hk). congruence.
Qed.

Lemma keyword_clash_raises (agent : Agent.t D) tools (o : Options D) :
  ¬ no_keyword_clash o →
  from_agent_and_tools agent tools o
  = ([], Raise (TypeError "got multiple values for keyword argument")).
Proof.
  intros Hclash. unfold from_agent_and_tools. case_bool_decide as Hex; [done|].
  destruct Hclash. unfold no_keyword_clash. apply Forall_forall. intros k Hk.
  destruct (default ∅ (agent_executor_kwargs o) !! k) as [v|] eqn:Hv; [|done].
  destruct Hex. apply Exists_exists. exists k. split; [done|]. by exists v.
Qed.

Lemma finish_Return kind llm (o : Options D) l prompt tools log ex :
  finish kind llm o l prompt tools = (log, Return ex) →
  log = (l ++ [AgentCreated kind tools])%list ∧
  AgentExecutor.agent ex = Agent.mk kind llm tools prompt ∧
  AgentExecutor.tools ex = tools.
Proof.
  unfold finish.
  destruct (from_agent_and_tools _ _ _) as [l' [e|ex']] eqn:Hex; [done|].
  intros [= <- <-].
  by apply from_agent_and_tools_Return in Hex as (_ & ? & ?).
Qed.

Lemma finish_ok kind llm (o : Options D) l prompt tools :
  no_keyword_clash o →
  ∃ ex, finish kind llm o l prompt tools
        = ((l ++ [AgentCreated kind tools])%list, Return ex) ∧
    AgentExecutor.agent ex = Agent.mk kind llm tools prompt ∧
    AgentExecutor.tools ex = tools.
Proof.
  intros Hno. unfold finish.
  destruct (from_agent_and_tools_ok (Agent.mk kind llm tools prompt) tools o Hno)
    as (ex & -> & Hag & Htl).
  by exists ex.
Qed.

Lemma dataframes_of_Some (items : list (PyObj D)) dfs :
  dataframes_of items = Some dfs ↔ items = PyDataFrame <$> dfs.
Proof.
  revert dfs. induction items as [|item items IH]; intros dfs.
  - simpl. split; [by intros [= <-]|]. by destruct dfs.
  - destruct item as [d|l|c]; simpl; [|by split; [|destruct dfs]..].
    destruct (dataframes_of items) as [ds|] eqn:Hds; simpl.
    + split.
      * intros [= <-]. rewrite fmap_cons. f_equal. by apply IH.
      * destruct dfs as [|d' dfs]; [done|]. rewrite fmap_cons.
        intros [= -> Hitems]. apply IH in Hitems. congruence.
    + split; [done|]. destruct dfs as [|d' dfs]; [done|]. rewrite fmap_cons.
      intros [= -> Hitems]. apply IH in Hitems. congruence.
Qed.

Lemma check_items_dataframes_of (df : PyObj D) items :
  check_items df items
  = match dataframes_of items with
    | Some dfs => ([], Return dfs)
    | None => ([], Raise (TypeMismatch df))
    end.
Proof.
  induction items as [|item items IH]; [done|].
  destruct item as [d|l|c]; simpl; [|done..].
  rewrite IH. by destruct (dataframes_of items).
Qed.

Lemma exclusive_not_conflict (inc : option bool) (s : option string) :
  inc = None ∨ s = None → is_not_None inc && is_not_None s = false.
Proof. intros [-> | ->]; [done|]. by rewrite andb_comm. Qed.

(** The two validating helpers, check by check. *)
Lemma get_prompt_and_tools_unfold (df : PyObj D) p s iv inc n extra :
  _get_prompt_and_tools df p s iv inc n extra
  = if pandas_importable then
      if is_not_None inc && is_not_None s then
        ([SetDisplayOption], Raise ConfigurationConflict)
      else
        match df with
        | PyDataFrame d =>
            let r := _get_single_prompt d p s iv inc n extra in
            (SetDisplayOption :: r.1, r.2)
        | PyList items =>
            match dataframes_of items with
            | Some dfs =>
                let r := _get_multi_prompt dfs p s iv inc n extra in
                (SetDisplayOption :: r.1, r.2)
            | None => ([SetDisplayOption], Raise (TypeMismatch df))
            end
        | PyOther _ => ([SetDisplayOption], Raise (TypeMismatch df))
        end
    else ([], Raise MissingDependency).
Proof.
  unfold _get_prompt_and_tools, import_pandas.
  destruct pandas_importable; [|done]. simpl.
  destruct (is_not_None inc && is_not_None s); [done|].
  destruct df as [d|items|c]; simpl; [|
    rewrite check_items_dataframes_of; destruct (dataframes_of items); simpl|done].
  - by destruct (_get_single_prompt _ _ _ _ _ _ _).
  - by destruct (_get_multi_prompt _ _ _ _ _ _ _).
  - done.
Qed.

Lemma get_functions_prompt_and_tools_unfold (df : PyObj D) p s iv inc n :
  _get_functions_prompt_and_tools df p s iv inc n
  = if pandas_importable then
      if is_not_None iv then ([SetDisplayOption], Raise UnsupportedOption)
      else if is_not_None inc && is_not_None s then
        ([SetDisplayOption], Raise ConfigurationConflict)
      else
        match df with
        | PyDataFrame d =>
            let r := _get_functions_single_prompt d p s inc n in
            (SetDisplayOption :: r.1, r.2)
        | PyList items =>
            match dataframes_of items with
            | Some dfs =>
                let r := _get_functions_multi_prompt dfs p s inc n in
                (SetDisplayOption :: r.1, r.2)
            | None => ([SetDisplayOption], Raise (TypeMismatch df))
            end
        | PyOther _ => ([SetDisplayOption], Raise (TypeMismatch df))
        end
    else ([], Raise MissingDependency).
Proof.
  unfold _get_functions_prompt_and_tools, import_pandas.
  destruct pandas_importable; [|done]. simpl.
  destruct (is_not_None iv); [done|].
  destruct (is_not_None inc && is_not_None s); [done|].
  destruct df as [d|items|c]; simpl; [|
    rewrite check_items_dataframes_of; destruct (dataframes_of items); simpl|done].
  - by destruct (_get_functions_single_prompt _ _ _ _ _).
  - by destruct (_get_functions_multi_prompt _ _ _ _ _).
  - done.
Qed.

Lemma get_prompt_and_tools_Return (df : PyObj D) p s iv inc n extra log r :
  _get_prompt_and_tools df p s iv inc n extra = (log, Return r) →
  pandas_importable = true ∧ (inc = None ∨ s = None) ∧
  ∃ l, log = SetDisplayOption :: l ∧
    match df with
    | PyDataFrame d => _get_single_prompt d p s iv inc n extra = (l, Return r)
    | PyList items =>
        ∃ dfs, items = PyDataFrame <$> dfs ∧
               _get_multi_prompt dfs p s iv inc n extra = (l, Return r)
    | PyOther _ => False
    end.
Proof.
  rewrite get_prompt_and_tools_unfold.
  destruct pandas_importable; [|done]. intros Hp. split; [done|].
  assert (inc = None ∨ s = None) as Hexcl.
  { destruct inc, s; auto; discriminate. }
  split; [done|]. rewrite exclusive_not_conflict in Hp by done.
  destruct df as [d|items|c]; [| |discriminate].
  - destruct (_get_single_prompt _ _ _ _ _ _ _) as [l r'] eqn:Hm. simpl in Hp.
    injection Hp as <- ->. eauto 6.
  - destruct (dataframes_of items) as [dfs|] eqn:Hdfs; [|discriminate].
    apply dataframes_of_Some in Hdfs as ->.
    destruct (_get_multi_prompt _ _ _ _ _ _ _) as [l r'] eqn:Hm. simpl in Hp.
    injection Hp as <- ->. eauto 6.
Qed.

Lemma get_functions_prompt_and_tools_Return (df : PyObj D) p s iv inc n log r :
  _get_functions_prompt_and_tools df p s iv inc n = (log, Return r) →
  pandas_importable = true ∧ iv = None ∧ (inc = None ∨ s = None) ∧
  ∃ l, log = SetDisplayOption :: l ∧
    match df with
    | PyDataFrame d => _get_functions_single_prompt d p s inc n = (l, Return r)
    | PyList items =>
        ∃ dfs, items = PyDataFrame <$> dfs ∧
               _get_functions_multi_prompt dfs p s inc n = (l, Return r)
    | PyOther _ => False
    end.
Proof.
  rewrite get_functions_prompt_and_tools_unfold.
  destruct pandas_importable; [|done]. intros Hp. split; [done|].
  destruct iv; [done|]. split; [done|]. simpl in Hp.
  assert (inc = None ∨ s = None) as Hexcl.
  { destruct inc, s; auto; discriminate. }
  split; [done|]. rewrite exclusive_not_conflict in Hp by done.
  destruct df as [d|items|c]; [| |discriminate].
  - destruct (_get_functions_single_prompt _ _ _ _ _) as [l r'] eqn:Hm. simpl in Hp.
    injection Hp as <- ->. eauto 6.
  - destruct (dataframes_of items) as [dfs|] eqn:Hdfs; [|discriminate].
    apply dataframes_of_Some in Hdfs as ->.
    destruct (_get_functions_multi_prompt _ _ _ _ _) as [l r'] eqn:Hm. simpl in Hp.
    injection Hp as <- ->. eauto 6.
Qed.

(** The entry point on each family of protocols, once the result of the
    validating helper is known. On the text-action protocol the prompt
    goes through the check of [create_react_agent] after the tool was
    constructed. *)
Lemma create_text_action_unfold llm (df : PyObj D) o :
  agent_type o = ZERO_SHOT_REACT_DESCRIPTION →
  create_pandas_dataframe_agent llm df o
  = match _get_prompt_and_tools df (prefix o) (suffix o) (input_variables o)
            (include_df_in_prompt o) (number_of_head_rows o) (extra_tools o)
    with
    | (l, Raise e) => (l, Raise e)
    | (l, Return (pt, tools)) =>
        match react_agent_check tools pt with
        | Raise e => (l, Raise e)
        | Return _ => finish ReactAgent llm o l (ZeroShotPrompt pt) tools
        end
    end.
Proof.
  intros Ha. unfold create_pandas_dataframe_agent, finish, create_react_agent.
  rewrite decide_True by done.
  destruct (_get_prompt_and_tools _ _ _ _ _ _ _) as [l [e|[pt tools]]]; [done|].
  simpl. unfold lift.
  destruct (react_agent_check tools pt) as [e|[]]; simpl;
    [by rewrite ?app_nil_r|].
  unfold from_agent_and_tools. case_bool_decide; simpl;
    by rewrite ?app_nil_r.
Qed.

Lemma create_function_call_unfold llm (df : PyObj D) o :
  function_call_protocol (agent_type o) →
  create_pandas_dataframe_agent llm df o
  = match _get_functions_prompt_and_tools df (prefix o) (suffix o)
            (input_variables o) (include_df_in_prompt o) (number_of_head_rows o)
    with
    | (l, Raise e) => (l, Raise e)
    | (l, Return (prompt, base_tools)) =>
        finish (if decide (agent_type o = OPENAI_FUNCTIONS)
                then OpenAIFunctionsAgent else OpenAIToolsAgent)
          llm o l prompt (base_tools ++ extra_tools o)%list
    end.
Proof.
  intros Ha. unfold create_pandas_dataframe_agent, finish.
  destruct Ha as [Ha|Ha]; rewrite Ha.
  all: rewrite decide_False by done.
  2: rewrite decide_False by done.
  all: rewrite decide_True by done.
  all: destruct (_get_functions_prompt_and_tools _ _ _ _ _ _)
         as [l [e|[prompt base_tools]]]; [done|].
  all: simpl; unfold from_agent_and_tools; case_bool_decide; simpl;
         by rewrite ?app_nil_r.
Qed.

(** The final [else] of the dispatch: nothing has been evaluated before
    the [raise]. *)
Lemma create_unknown_protocol llm (df : PyObj D) o :
  ¬ known_protocol (agent_type o) →
  create_pandas_dataframe_agent llm df o
  = ([], Raise (UnsupportedProtocol (agent_type o))).
Proof.
  intros Hunknown. unfold create_pandas_dataframe_agent.
  unfold known_protocol in Hunknown.
  rewrite !decide_False by tauto. done.
Qed.

(** What a successful text-action call did: the helper produced the prompt
    and the tools, the react agent accepted the prompt, and the agent and the
    executor were built with them. *)
Lemma create_text_action_Return llm (df : PyObj D) o log ex :
  agent_type o = ZERO_SHOT_REACT_DESCRIPTION →
  create_pandas_dataframe_agent llm df o = (log, Return ex) →
  ∃ pt tools l,
    _get_prompt_and_tools df (prefix o) (suffix o) (input_variables o)
      (include_df_in_prompt o) (number_of_head_rows o) (extra_tools o)
    = (l, Return (pt, tools)) ∧
    react_agent_check tools pt = Return tt ∧
    log = (l ++ [AgentCreated ReactAgent tools])%list ∧
    AgentExecutor.agent ex = Agent.mk ReactAgent llm tools (ZeroShotPrompt pt) ∧
    AgentExecutor.tools ex = tools.
Proof.
  intros Ha Hrun. rewrite create_text_action_unfold in Hrun by done.
  destruct (_get_prompt_and_tools _ _ _ _ _ _ _) as [l [e|[pt tools]]]; [done|].
  destruct (react_agent_check tools pt) as [e|[]] eqn:Hcheck; [done|].
  apply finish_Return in Hrun as (-> & Hag & Htl).
  by exists pt, tools, l.
Qed.

(** The same for the two function-call protocols: the extra tools are
    appended to the helper's tools before the agent is constructed. *)
Lemma create_function_call_Return llm (df : PyObj D) o log ex :
  function_call_protocol (agent_type o) →
  create_pandas_dataframe_agent llm df o = (log, Return ex) →
  ∃ prompt base_tools l,
    _get_functions_prompt_and_tools df (prefix o) (suffix o)
      (input_variables o) (include_df_in_prompt o) (number_of_head_rows o)
    = (l, Return (prompt, base_tools)) ∧
    let kind := if decide (agent_type o = OPENAI_FUNCTIONS)
                then OpenAIFunctionsAgent else OpenAIToolsAgent in
    let tools := (base_tools ++ extra_tools o)%list in
    log = (l ++ [AgentCreated kind tools])%list ∧
    AgentExecutor.agent ex = Agent.mk kind llm tools prompt ∧
    AgentExecutor.tools ex = tools.
Proof.
  intros Ha Hrun. rewrite create_function_call_unfold in Hrun by done.
  destruct (_get_functions_prompt_and_tools _ _ _ _ _ _)
    as [l [e|[prompt base_tools]]]; [done|].
  apply finish_Return in Hrun as (-> & Hag & Htl).
  by exists prompt, base_tools, l.
Qed.

(** What the text-action validating helper returned: the prompt and tools
    of the helper for the shape of the dataset argument. *)
Lemma get_prompt_and_tools_shape (df : PyObj D) p s iv inc n extra l pt tools :
  _get_prompt_and_tools df p s iv inc n extra = (l, Return (pt, tools)) →
  match df with
  | PyDataFrame d =>
      l = [SetDisplayOption; ToolCreated {["df" := d]}] ∧
      tools = PythonAstREPLTool {["df" := d]} :: extra ∧
      ∃ pv, pt = single_prompt d p s iv inc extra pv ∧
        if bool_decide ("df_head" ∈ resolved_input_variables false s inc iv)
        then ∃ md, to_markdown (head n d) = Return md ∧ pv = {["df_head" := md]}
        else pv = ∅
  | PyList items =>
      ∃ dfs, items = PyDataFrame <$> dfs ∧
        l = [SetDisplayOption; ToolCreated (bind_locals 0 dfs ∅)] ∧
        tools = PythonAstREPLTool (bind_locals 0 dfs ∅) :: extra ∧
        let ivs := resolved_input_variables true s inc iv in
        ∃ dfs_head,
          pt = multi_prompt dfs p s iv inc extra
                 (multi_partial_variables ivs (pretty (length dfs)) dfs_head) ∧
          if bool_decide ("dfs_head" ∈ ivs)
          then ∃ mds, rendered n dfs mds ∧
                      dfs_head = Some (str_join blank_line mds)
          else dfs_head = None
  | PyOther _ => False
  end.
Proof.
  intros Hp. apply get_prompt_and_tools_Return in Hp as (_ & _ & l' & -> & Hp).
  destruct df as [d|items|c]; [|destruct Hp as (dfs & -> & Hp)|done].
  - by apply get_single_prompt_Return in Hp as (-> & -> & Hpt).
  - apply get_multi_prompt_Return in Hp as (-> & -> & Hpt). by exists dfs.
Qed.

End EntryPointFacts.

Section ErrorClaims.
Context {D : Type} `{!Dataset D} `{!PyEnv} `{!PromptConstants}
  `{!ReactAgentCheck D}.

(** C6. For every protocol identifier other than the three known values
    the entry point raises [UnsupportedProtocol] with an empty event log:
    pandas is not even imported, no execution tool and no agent is
    constructed, and nothing is returned. *)
Theorem C6_unknown_protocol_rejected llm (df : PyObj D) o :
  ¬ known_protocol (agent_type o) →
  create_pandas_dataframe_agent llm df o
  = ([], Raise (UnsupportedProtocol (agent_type o)))
  ∧ nothing_constructed ([] : list (Event D)).
Proof.
  intros Hunknown. split; [by apply create_unknown_protocol|].
  apply Forall_nil_2.
Qed.

(** The input-variable check of the function-call path, after the import. *)
Lemma create_input_variables_given llm (df : PyObj D) o l :
  function_call_protocol (agent_type o) →
  input_variables o = Some l →
  create_pandas_dataframe_agent llm df o
  = if pandas_importable then ([SetDisplayOption], Raise UnsupportedOption)
    else ([], Raise MissingDependency).
Proof.
  intros Ha Hiv. rewrite create_function_call_unfold by done.
  rewrite get_functions_prompt_and_tools_unfold, Hiv.
  by destruct pandas_importable.
Qed.

(** C7 (amended). For both function-call protocols, a call that supplies an
    explicit input-variable list fails, with no tool and no agent
    constructed: with [UnsupportedOption], after the display option was set,
    when pandas is importable, and with the import error, before anything
    else, when it is not. *)
Theorem C7_input_variables_unsupported llm (df : PyObj D) o l :
  function_call_protocol (agent_type o) →
  input_variables o = Some l →
  create_pandas_dataframe_agent llm df o
  = if pandas_importable then ([SetDisplayOption], Raise UnsupportedOption)
    else ([], Raise MissingDependency).
Proof. apply create_input_variables_given. Qed.

(** Both assembly paths refuse a suffix together with a set include flag;
    the function-call path looks at the input-variable list first. *)
Lemma create_suffix_with_include_flag llm (df : PyObj D) o s b :
  pandas_importable = true →
  known_protocol (agent_type o) →
  suffix o = Some s →
  include_df_in_prompt o = Some b →
  create_pandas_dataframe_agent llm df o
  = ([SetDisplayOption],
     Raise (if decide (agent_type o = ZERO_SHOT_REACT_DESCRIPTION)
            then ConfigurationConflict
            else if is_not_None (input_variables o) then UnsupportedOption
            else ConfigurationConflict)).
Proof.
  intros Hpd Ha Hs Hinc. destruct Ha as [Ha|Ha].
  - rewrite create_text_action_unfold by done.
    rewrite get_prompt_and_tools_unfold, Hpd, Hs, Hinc. simpl.
    by rewrite decide_True by done.
  - rewrite create_function_call_unfold by done.
    rewrite get_functions_prompt_and_tools_unfold, Hpd, Hs, Hinc. simpl.
    assert (agent_type o ≠ ZERO_SHOT_REACT_DESCRIPTION) as Hne
      by (destruct Ha as [Ha|Ha]; rewrite Ha; discriminate).
    rewrite (decide_False (P:=agent_type o = ZERO_SHOT_REACT_DESCRIPTION)) by done.
    by destruct (is_not_None (input_variables o)).
Qed.

(** C2 (amended). When pandas is importable, the protocol is one of the
    three known ones, the suffix is given and the include flag is set to
    either value, the call fails after setting the display option, with no
    tool and no agent constructed. The error is [ConfigurationConflict]
    for the text-action protocol and for a function-call protocol without
    an explicit input-variable list; a function-call protocol with an
    explicit input-variable list raises [UnsupportedOption], which is
    checked first. *)
Theorem C2_suffix_with_include_flag_fails llm (df : PyObj D) o s b :
  pandas_importable = true →
  known_protocol (agent_type o) →
  suffix o = Some s →
  include_df_in_prompt o = Some b →
  ∃ e, create_pandas_dataframe_agent llm df o = ([SetDisplayOption], Raise e)
    ∧ nothing_constructed ([SetDisplayOption] : list (Event D))
    ∧ e = (if decide (agent_type o = ZERO_SHOT_REACT_DESCRIPTION)
           then ConfigurationConflict
           else if is_not_None (input_variables o) then UnsupportedOption
           else ConfigurationConflict).
Proof.
  intros Hpd Ha Hs Hinc. eexists. split; [|split; [|reflexivity]].
  - by apply (create_suffix_with_include_flag llm df o s b).
  - by repeat constructor.
Qed.

(** A call that passes a suffix and otherwise keeps the defaults, on any
    protocol identifier. *)
Lemma create_suffix_only llm (df : PyObj D) a s :
  create_pandas_dataframe_agent llm df
    (with_agent_type a (with_suffix (Some s) default_options))
  = if decide (known_protocol a) then
      if pandas_importable then ([SetDisplayOption], Raise ConfigurationConflict)
      else ([], Raise MissingDependency)
    else ([], Raise (UnsupportedProtocol a)).
Proof.
  case_decide as Ha; [|by rewrite create_unknown_protocol].
  destruct pandas_importable eqn:Hpd.
  - rewrite (create_suffix_with_include_flag llm df _ s true) by done.
    simpl. by case_decide.
  - destruct Ha as [Ha|Ha].
    + rewrite create_text_action_unfold by done.
      rewrite get_prompt_and_tools_unfold. by rewrite Hpd.
    + rewrite create_function_call_unfold by done.
      rewrite get_functions_prompt_and_tools_unfold. by rewrite Hpd.
Qed.

(** C9 (amended). The include flag defaults to [True], a set value. A call
    that passes a suffix and otherwise keeps the defaults therefore never
    returns, whatever the dataset argument: on each of the three known
    protocols it raises [ConfigurationConflict] when pandas is importable
    and the import error when it is not, and on any other protocol
    identifier it raises [UnsupportedProtocol]. And every call that returns
    with a suffix was given the include flag as [None]. *)
Theorem C9_default_include_flag_conflicts_with_suffix :
  include_df_in_prompt (default_options (D:=D)) = Some true ∧
  (∀ llm (df : PyObj D) a s,
     create_pandas_dataframe_agent llm df
       (with_agent_type a (with_suffix (Some s) default_options))
     = if decide (known_protocol a) then
         if pandas_importable
         then ([SetDisplayOption], Raise ConfigurationConflict)
         else ([], Raise MissingDependency)
       else ([], Raise (UnsupportedProtocol a))) ∧
  (∀ llm (df : PyObj D) o s log ex,
     create_pandas_dataframe_agent llm df o = (log, Return ex) →
     suffix o = Some s →
     include_df_in_prompt o = None).
Proof.
  split; [done|]. split; [apply create_suffix_only|].
  intros llm df o s log ex Hrun Hs.
  destruct (decide (known_protocol (agent_type o))) as [Ha|Ha].
  - destruct (include_df_in_prompt o) as [b|] eqn:Hinc; [|done].
    destruct Ha as [Ha|Ha].
    + apply create_text_action_Return in Hrun as (?&?&?&Hp&_); [|done].
      apply get_prompt_and_tools_Return in Hp as (_&[?|?]&_); congruence.
    + apply create_function_call_Return in Hrun as (?&?&?&Hp&_); [|done].
      apply get_functions_prompt_and_tools_Return in Hp as (_&_&[?|?]&_);
        congruence.
  - rewrite create_unknown_protocol in Hrun by done. discriminate.
Qed.

End ErrorClaims.

Section AssemblyFacts.
Context {D : Type} `{!Dataset D} `{!PyEnv} `{!PromptConstants}
  `{!ReactAgentCheck D}.

(** The function-call helpers when the include flag is not truthy: the
    suffix, if any, is appended to the prefix as it is. *)
Lemma get_functions_single_prompt_plain (d : D) p s inc n :
  truthy inc = false →
  _get_functions_single_prompt d p s inc n
  = ([ToolCreated {["df" := d]}],
     Return (FunctionsPrompt (default PREFIX_FUNCTIONS p +:+ default "" s),
             [PythonAstREPLTool {["df" := d]}])).
Proof.
  intros Hinc. rewrite get_functions_single_prompt_eq.
  unfold functions_single_suffix. rewrite Hinc. by destruct s.
Qed.

Lemma get_functions_multi_prompt_plain (dfs : list D) p s inc n pre :
  truthy inc = false →
  str_format (default MULTI_DF_PREFIX_FUNCTIONS p)
    [("num_dfs", pretty (length dfs))] = Return pre →
  _get_functions_multi_prompt dfs p s inc n
  = ([ToolCreated (bind_locals 0 dfs ∅)],
     Return (FunctionsPrompt (pre +:+ default "" s),
             [PythonAstREPLTool (bind_locals 0 dfs ∅)])).
Proof.
  intros Hinc Hpre. rewrite get_functions_multi_prompt_eq.
  unfold functions_multi_suffix. rewrite Hinc. destruct s; by rewrite Hpre.
Qed.

Lemma get_functions_multi_prompt_prefix (dfs : list D) p s inc n log r :
  _get_functions_multi_prompt dfs p s inc n = (log, Return r) →
  ∃ pre, str_format (default MULTI_DF_PREFIX_FUNCTIONS p)
           [("num_dfs", pretty (length dfs))] = Return pre.
Proof.
  rewrite get_functions_multi_prompt_eq.
  destruct (functions_multi_suffix dfs s inc n); [done|].
  destruct (str_format _ _) as [e|pre]; [done|]. eauto.
Qed.

(** The shape of every successful call: one execution tool was created,
    its bindings depend on the shape of the dataset argument only, the
    caller's extra tools follow it, and the agent was constructed last,
    with the complete tool list. *)
Lemma create_Return_shape llm (df : PyObj D) o log ex :
  create_pandas_dataframe_agent llm df o = (log, Return ex) →
  ∃ df_locals,
    AgentExecutor.tools ex = PythonAstREPLTool df_locals :: extra_tools o ∧
    Agent.tools (AgentExecutor.agent ex) = AgentExecutor.tools ex ∧
    (∃ kind, log = [SetDisplayOption; ToolCreated df_locals;
                    AgentCreated kind (AgentExecutor.tools ex)]) ∧
    match df with
    | PyDataFrame d => df_locals = {["df" := d]}
    | PyList items =>
        ∃ dfs, items = PyDataFrame <$> dfs ∧ df_locals = bind_locals 0 dfs ∅
    | PyOther _ => False
    end.
Proof.
  intros Hrun.
  destruct (decide (known_protocol (agent_type o))) as [[Ha|Ha]|Ha].
  - apply create_text_action_Return in Hrun
      as (pt & tools & l & Hp & _ & -> & Hag & Htl); [|done].
    apply get_prompt_and_tools_shape in Hp.
    destruct df as [d|items|c]; [| |done].
    + destruct Hp as (-> & -> & _).
      eexists. rewrite Hag, Htl. simpl. eauto 10.
    + destruct Hp as (dfs & -> & -> & -> & _).
      eexists. rewrite Hag, Htl. simpl. eauto 10.
  - apply create_function_call_Return in Hrun
      as (pt & tools & l & Hp & -> & Hag & Htl); [|done].
    apply get_functions_prompt_and_tools_Return in Hp
      as (_ & _ & _ & l' & -> & Hp).
    destruct df as [d|items|c]; [|destruct Hp as (dfs & -> & Hp)|done].
    + apply get_functions_single_prompt_Return in Hp as (-> & msg & [= -> ->]).
      eexists. rewrite Hag, Htl. simpl. eauto 10.
    + apply get_functions_multi_prompt_Return in Hp as (-> & msg & [= -> ->]).
      eexists. rewrite Hag, Htl. simpl. eauto 10.
  - rewrite create_unknown_protocol in Hrun by done. discriminate.
Qed.

(** Validation passes a list of dataframes, of any length, on to the
    multi-dataframe helper. *)
Lemma get_prompt_and_tools_list (dfs : list D) p s iv inc n extra :
  pandas_importable = true →
  inc = None ∨ s = None →
  _get_prompt_and_tools (PyList (PyDataFrame <$> dfs)) p s iv inc n extra
  = (SetDisplayOption :: (_get_multi_prompt dfs p s iv inc n extra).1,
     (_get_multi_prompt dfs p s iv inc n extra).2).
Proof.
  intros Hpd Hexcl. rewrite get_prompt_and_tools_unfold, Hpd.
  rewrite exclusive_not_conflict by done.
  by rewrite (proj2 (dataframes_of_Some _ dfs) eq_refl).
Qed.

Lemma get_functions_prompt_and_tools_list (dfs : list D) p s inc n :
  pandas_importable = true →
  inc = None ∨ s = None →
  _get_functions_prompt_and_tools (PyList (PyDataFrame <$> dfs)) p s None inc n
  = (SetDisplayOption :: (_get_functions_multi_prompt dfs p s inc n).1,
     (_get_functions_multi_prompt dfs p s inc n).2).
Proof.
  intros Hpd Hexcl. rewrite get_functions_prompt_and_tools_unfold, Hpd. simpl.
  rewrite exclusive_not_conflict by done.
  by rewrite (proj2 (dataframes_of_Some _ dfs) eq_refl).
Qed.

(** The entry point on a function-call protocol, once the helper's result is
    known. *)
Lemma create_function_call_finish llm (df : PyObj D) o l r :
  function_call_protocol (agent_type o) →
  _get_functions_prompt_and_tools df (prefix o) (suffix o)
    (input_variables o) (include_df_in_prompt o) (number_of_head_rows o)
  = (l, r) →
  match r with
  | Raise e => create_pandas_dataframe_agent llm df o = (l, Raise e)
  | Return (prompt, base_tools) =>
      no_keyword_clash o →
      ∃ log ex, create_pandas_dataframe_agent llm df o = (log, Return ex) ∧
        executor_prompt ex = prompt ∧
        AgentExecutor.tools ex = (base_tools ++ extra_tools o)%list
  end.
Proof.
  intros Ha Hp. rewrite create_function_call_unfold by done. rewrite Hp.
  destruct r as [e|[prompt base_tools]]; [done|]. intros Hno.
  match goal with
  | |- context [finish ?k llm o l prompt ?t] =>
      destruct (finish_ok k llm o l prompt t Hno) as (ex & -> & Hag & Htl)
  end.
  eexists _, ex. split; [done|]. unfold executor_prompt. by rewrite Hag, Htl.
Qed.

(** The entry point on the text-action protocol, once the helper has
    returned: the react agent's verdict on the prompt decides. *)
Lemma create_text_action_finish llm (df : PyObj D) o l pt tools :
  agent_type o = ZERO_SHOT_REACT_DESCRIPTION →
  _get_prompt_and_tools df (prefix o) (suffix o) (input_variables o)
    (include_df_in_prompt o) (number_of_head_rows o) (extra_tools o)
  = (l, Return (pt, tools)) →
  match react_agent_check tools pt with
  | Raise e => create_pandas_dataframe_agent llm df o = (l, Raise e)
  | Return _ =>
      no_keyword_clash o →
      ∃ log ex, create_pandas_dataframe_agent llm df o = (log, Return ex) ∧
        executor_prompt ex = ZeroShotPrompt pt ∧
        AgentExecutor.tools ex = tools
  end.
Proof.
  intros Ha Hp. rewrite create_text_action_unfold by done. rewrite Hp.
  destruct (react_agent_check tools pt) as [e|[]]; [done|]. intros Hno.
  destruct (finish_ok ReactAgent llm o l (ZeroShotPrompt pt) tools Hno)
    as (ex & -> & Hag & Htl).
  eexists _, ex. split; [done|]. unfold executor_prompt. by rewrite Hag, Htl.
Qed.

End AssemblyFacts.

Section AssemblyClaims.
Context {D : Type} `{!Dataset D} `{!PyEnv} `{!PromptConstants}
  `{!ReactAgentCheck D}.

(** C4 (amended). An empty collection passes validation. With pandas
    importable and suffix and include flag not both set: the text-action
    helper over the empty list returns a prompt and an execution tool
    holding no binding, after which the call returns when the react agent
    accepts that prompt and no executor keyword clashes, and raises the
    react agent's error, with the tool already constructed, when it rejects
    the prompt; a function-call call without an input-variable list and
    with no clashing executor keyword returns, with the same tool,
    whenever the [str.format] substitutions of the multi-dataframe helper
    return. *)
Theorem C4_empty_collection_accepted llm (o : Options D) :
  pandas_importable = true →
  include_df_in_prompt o = None ∨ suffix o = None →
  check_items (D:=D) (PyList []) [] = ([], Return []) ∧
  (∃ pt,
     _get_prompt_and_tools (PyList []) (prefix o) (suffix o)
       (input_variables o) (include_df_in_prompt o) (number_of_head_rows o)
       (extra_tools o)
     = ([SetDisplayOption; ToolCreated ∅],
        Return (pt, PythonAstREPLTool ∅ :: extra_tools o)) ∧
     (agent_type o = ZERO_SHOT_REACT_DESCRIPTION →
      match react_agent_check (PythonAstREPLTool ∅ :: extra_tools o) pt with
      | Raise e =>
          create_pandas_dataframe_agent llm (PyList []) o
          = ([SetDisplayOption; ToolCreated ∅], Raise e)
      | Return _ =>
          no_keyword_clash o →
          ∃ log ex,
            create_pandas_dataframe_agent llm (PyList []) o = (log, Return ex)
            ∧ AgentExecutor.tools ex = PythonAstREPLTool ∅ :: extra_tools o
      end)) ∧
  (function_call_protocol (agent_type o) →
   input_variables o = None →
   no_keyword_clash o →
   ∀ pre sfx,
     str_format (default MULTI_DF_PREFIX_FUNCTIONS (prefix o))
       [("num_dfs", "0")] = Return pre →
     match suffix o with
     | Some s => Return s
     | None =>
         if truthy (include_df_in_prompt o)
         then str_format FUNCTIONS_WITH_MULTI_DF [("dfs_head", "")]
         else Return ""
     end = Return sfx →
     ∃ log ex, create_pandas_dataframe_agent llm (PyList []) o = (log, Return ex)
       ∧ AgentExecutor.tools ex = PythonAstREPLTool ∅ :: extra_tools o
       ∧ executor_prompt ex = FunctionsPrompt (pre +:+ sfx)).
Proof.
  intros Hpd Hexcl. split; [done|]. split.
  - pose proof (get_prompt_and_tools_list [] (prefix o) (suffix o)
      (input_variables o) (include_df_in_prompt o) (number_of_head_rows o)
      (extra_tools o) Hpd Hexcl) as Hp.
    rewrite get_multi_prompt_eq in Hp. cbv zeta in Hp.
    rewrite render_heads_nil in Hp.
    assert (∃ pt,
      _get_prompt_and_tools (PyList []) (prefix o) (suffix o)
        (input_variables o) (include_df_in_prompt o) (number_of_head_rows o)
        (extra_tools o)
      = ([SetDisplayOption; ToolCreated ∅],
         Return (pt, PythonAstREPLTool ∅ :: extra_tools o))) as [pt Hpt].
    { change (PyDataFrame <$> []) with ([] : list (PyObj D)) in Hp.
      rewrite Hp. case_bool_decide; simpl; eauto. }
    exists pt. split; [done|]. intros Ha.
    pose proof (create_text_action_finish llm _ o _ _ _ Ha Hpt) as Hfin.
    destruct (react_agent_check _ pt) as [e|u]; [done|].
    intros Hno. destruct (Hfin Hno) as (log & ex & Hrun & _ & Htl). eauto.
  - intros Ha Hiv Hno pre sfx Hpre Hsfx.
    pose proof (get_functions_prompt_and_tools_list [] (prefix o) (suffix o)
      (include_df_in_prompt o) (number_of_head_rows o) Hpd Hexcl) as Hp.
    rewrite <- Hiv in Hp.
    assert (_get_functions_multi_prompt ([] : list D) (prefix o) (suffix o)
              (include_df_in_prompt o) (number_of_head_rows o)
            = ([ToolCreated ∅],
               Return (FunctionsPrompt (pre +:+ sfx), [PythonAstREPLTool ∅])))
      as Hm.
    { rewrite get_functions_multi_prompt_eq. unfold functions_multi_suffix.
      rewrite render_heads_nil. change (pretty (length [])) with "0".
      destruct (suffix o) as [s|] eqn:Hs.
      - assert (truthy (include_df_in_prompt o) = false) as ->
          by (by destruct Hexcl as [-> | ?]).
        injection Hsfx as <-. by rewrite Hpre.
      - destruct (truthy (include_df_in_prompt o)).
        + rewrite Hsfx. by rewrite Hpre.
        + injection Hsfx as <-. by rewrite Hpre. }
    rewrite Hm in Hp. simpl in Hp.
    change (PyDataFrame <$> []) with ([] : list (PyObj D)) in Hp.
    pose proof (create_function_call_finish llm _ o _ _ Ha Hp) as Hfin.
    simpl in Hfin. destruct (Hfin Hno) as (log & ex & Hrun & Hpr & Htl).
    eauto 6.
Qed.

(** C1 (amended). The bindings of the execution tool follow the shape of
    the dataset argument, not its cardinality: after a successful call a
    bare dataframe is bound to [df] alone, and a list of N dataframes, for
    every N including 1, is bound to exactly [df1] .. [dfN] in list
    order, never to [df]. *)
Theorem C1_bindings_follow_argument_shape llm (df : PyObj D) o log ex :
  create_pandas_dataframe_agent llm df o = (log, Return ex) →
  match df with
  | PyDataFrame d => executor_locals ex = Some {["df" := d]}
  | PyList items =>
      ∃ dfs, items = PyDataFrame <$> dfs ∧
        executor_locals ex = Some (bind_locals 0 dfs ∅) ∧
        (∀ k d, bind_locals 0 dfs ∅ !! k = Some d
                ↔ ∃ j, k = df_name j ∧ dfs !! j = Some d) ∧
        dom (bind_locals 0 dfs ∅)
        = list_to_set (df_name <$> seq 0 (length dfs)) ∧
        bind_locals 0 dfs ∅ !! "df" = None
  | PyOther _ => False
  end.
Proof.
  intros Hrun.
  apply create_Return_shape in Hrun as (df_locals & Htl & _ & _ & Hshape).
  unfold executor_locals. rewrite Htl.
  destruct df as [d|items|c]; [by subst| |done].
  destruct Hshape as (dfs & -> & ->). exists dfs.
  split; [done|]. split; [done|].
  split; [apply bind_locals_lookup|]. split; [apply bind_locals_dom|].
  apply bind_locals_never_df.
Qed.

(** C8 (amended). After every successful call the executor's tool list is
    the dataset-bound execution tool followed by the caller's extra tools
    in their order; for all three protocols the agent is constructed with
    that complete list, the extra tools being appended before the agent is
    constructed, which is the last thing the call does. *)
Theorem C8_execution_tool_first llm (df : PyObj D) o log ex :
  create_pandas_dataframe_agent llm df o = (log, Return ex) →
  ∃ df_locals kind,
    AgentExecutor.tools ex = PythonAstREPLTool df_locals :: extra_tools o ∧
    Agent.tools (AgentExecutor.agent ex) = AgentExecutor.tools ex ∧
    log = [SetDisplayOption; ToolCreated df_locals;
           AgentCreated kind (AgentExecutor.tools ex)].
Proof.
  intros Hrun.
  apply create_Return_shape in Hrun
    as (df_locals & Htl & Hag & [kind Hlog] & _).
  by exists df_locals, kind.
Qed.

(** C5 (amended). For the text-action protocol without a caller-supplied
    input-variable list, the list the prompt is created with is
    [input, agent_scratchpad] for a bare dataframe, extended with
    [df_head] exactly when the preview is included, and
    [input, agent_scratchpad, num_dfs] for a list of dataframes, extended
    with [dfs_head] exactly when the preview is included. *)
Theorem C5_default_input_variables llm (df : PyObj D) o log ex :
  agent_type o = ZERO_SHOT_REACT_DESCRIPTION →
  input_variables o = None →
  create_pandas_dataframe_agent llm df o = (log, Return ex) →
  ∃ pt, executor_prompt ex = ZeroShotPrompt pt ∧
    let preview := preview_forced (suffix o) (include_df_in_prompt o) in
    PromptTemplate.input_variables pt
    = match df with
      | PyDataFrame _ =>
          (["input"; "agent_scratchpad"]
             ++ (if preview then ["df_head"] else []))%list
      | _ =>
          (["input"; "agent_scratchpad"; "num_dfs"]
             ++ (if preview then ["dfs_head"] else []))%list
      end.
Proof.
  intros Ha Hiv Hrun.
  apply create_text_action_Return in Hrun
    as (pt & tools & l & Hp & _ & _ & Hag & _); [|done].
  exists pt. unfold executor_prompt. rewrite Hag. split; [done|].
  apply get_prompt_and_tools_shape in Hp. rewrite Hiv in Hp.
  destruct df as [d|items|c]; [| |done].
  - by destruct Hp as (_ & _ & pv & -> & _).
  - by destruct Hp as (dfs & _ & _ & _ & dfs_head & -> & _).
Qed.

(** C10. In the text-action helpers the preview is rendered and bound
    into the prompt exactly when [df_head] (bare dataframe) or [dfs_head]
    (list) is a member of the resolved input-variable list, which is the
    caller's list when one is given. When the slot is declared, the helper
    binds it to the text of the first rows of the dataframe, for a list to
    the texts of the first rows of the dataframes in order, joined by blank
    lines, and a failure to render is the helper's failure, after the tool
    was constructed. When the slot is not declared, nothing is rendered:
    the helper returns whatever rendering would do, with the slot unbound,
    also when the include flag is true. *)
Theorem C10_preview_bound_iff_slot_declared (d : D) (dfs : list D)
    (p s : option string) (iv : option (list string)) (inc : option bool)
    (n : Z) (extra : list (Tool D)) :
  let single := _get_single_prompt d p s iv inc n extra in
  let multi := _get_multi_prompt dfs p s iv inc n extra in
  let ivs1 := resolved_input_variables false s inc iv in
  let ivsN := resolved_input_variables true s inc iv in
  (∀ l, iv = Some l → ivs1 = l ∧ ivsN = l) ∧
  (if bool_decide ("df_head" ∈ ivs1) then
     match to_markdown (head n d) with
     | Raise e => single = ([ToolCreated {["df" := d]}], Raise e)
     | Return md =>
         ∃ pt tools,
           single = ([ToolCreated {["df" := d]}], Return (pt, tools)) ∧
           PromptTemplate.input_variables pt = ivs1 ∧
           PromptTemplate.partial_variables pt !! "df_head" = Some md
     end
   else
     ∃ pt tools,
       single = ([ToolCreated {["df" := d]}], Return (pt, tools)) ∧
       PromptTemplate.input_variables pt = ivs1 ∧
       PromptTemplate.partial_variables pt = ∅) ∧
  (if bool_decide ("dfs_head" ∈ ivsN) then
     (∀ mds, rendered n dfs mds →
        ∃ pt tools,
          multi = ([ToolCreated (bind_locals 0 dfs ∅)], Return (pt, tools)) ∧
          PromptTemplate.input_variables pt = ivsN ∧
          PromptTemplate.partial_variables pt !! "dfs_head"
          = Some (str_join blank_line mds)) ∧
     ((∀ mds, ¬ rendered n dfs mds) →
        ∃ e, multi = ([ToolCreated (bind_locals 0 dfs ∅)], Raise e))
   else
     ∃ pt tools,
       multi = ([ToolCreated (bind_locals 0 dfs ∅)], Return (pt, tools)) ∧
       PromptTemplate.input_variables pt = ivsN ∧
       PromptTemplate.partial_variables pt !! "dfs_head" = None).
Proof.
  intros single multi ivs1 ivsN. split; [by intros l ->|]. split.
  - subst single. rewrite get_single_prompt_eq. cbv zeta. fold ivs1.
    case_bool_decide as Hin.
    + destruct (to_markdown (head n d)) as [e|md]; [done|].
      eexists _, _. split; [done|]. split; [done|]. apply lookup_singleton_eq.
    + by eexists _, _.
  - subst multi. rewrite get_multi_prompt_eq. cbv zeta. fold ivsN.
    case_bool_decide as Hin.
    + split.
      * intros mds Hmds.
        rewrite (proj2 (render_heads_Return n dfs _)) by eauto.
        eexists _, _. split; [done|]. split; [done|].
        apply multi_partial_variables_dfs_head.
      * intros Hnone. destruct (render_heads n dfs) as [e|h] eqn:Hh; [eauto|].
        apply render_heads_Return in Hh as (mds & Hmds & _).
        by destruct (Hnone mds).
    + eexists _, _. split; [done|]. split; [done|].
      apply multi_partial_variables_dfs_head.
Qed.

(** C3 (amended). When a call with a caller-supplied suffix succeeds:
    for the text-action protocol the suffix of the prompt is the caller's
    text as given and, unless the caller also supplied an input-variable
    list, the preview slot is declared and bound to the rendered preview;
    for the function-call protocols the system message is the prefix
    (count-substituted for a list) followed by the caller's suffix as
    given, with no preview substituted into it. *)
Theorem C3_caller_suffix llm (df : PyObj D) o s log ex :
  create_pandas_dataframe_agent llm df o = (log, Return ex) →
  suffix o = Some s →
  (agent_type o = ZERO_SHOT_REACT_DESCRIPTION →
   ∃ pt, executor_prompt ex = ZeroShotPrompt pt ∧
     PromptTemplate.suffix pt = s ∧
     (input_variables o = None →
      match df with
      | PyDataFrame d =>
          "df_head" ∈ PromptTemplate.input_variables pt ∧
          ∃ md, to_markdown (head (number_of_head_rows o) d) = Return md ∧
            PromptTemplate.partial_variables pt !! "df_head" = Some md
      | PyList items =>
          ∃ dfs, items = PyDataFrame <$> dfs ∧
            "dfs_head" ∈ PromptTemplate.input_variables pt ∧
            ∃ mds, rendered (number_of_head_rows o) dfs mds ∧
              PromptTemplate.partial_variables pt !! "dfs_head"
              = Some (str_join blank_line mds)
      | PyOther _ => False
      end)) ∧
  (function_call_protocol (agent_type o) →
   match df with
   | PyDataFrame d =>
       executor_prompt ex
       = FunctionsPrompt (default PREFIX_FUNCTIONS (prefix o) +:+ s)
   | PyList items =>
       ∃ dfs pre, items = PyDataFrame <$> dfs ∧
         str_format (default MULTI_DF_PREFIX_FUNCTIONS (prefix o))
           [("num_dfs", pretty (length dfs))] = Return pre ∧
         executor_prompt ex = FunctionsPrompt (pre +:+ s)
   | PyOther _ => False
   end).
Proof.
  intros Hrun Hs. split; intros Ha.
  - apply create_text_action_Return in Hrun
      as (pt & tools & l & Hp & _ & _ & Hag & _); [|done].
    exists pt. unfold executor_prompt. rewrite Hag. split; [done|].
    apply get_prompt_and_tools_shape in Hp. rewrite Hs in Hp.
    destruct df as [d|items|c]; [| |done].
    + destruct Hp as (_ & _ & pv & -> & Hpv). split; [done|].
      intros Hiv. rewrite Hiv in Hpv. simpl in Hpv.
      rewrite Hiv. simpl. split; [set_solver|].
      destruct Hpv as (md & Hmd & ->). exists md. split; [done|].
      apply lookup_singleton_eq.
    + destruct Hp as (dfs & -> & _ & _ & dfs_head & -> & Hpv).
      split; [done|]. intros Hiv. rewrite Hiv in Hpv. simpl in Hpv.
      rewrite Hiv. simpl. exists dfs. split; [done|]. split; [set_solver|].
      destruct Hpv as (mds & Hmds & ->). exists mds. split; [done|].
      apply multi_partial_variables_dfs_head.
  - apply create_function_call_Return in Hrun
      as (pt & tools & l & Hp & _ & Hag & _); [|done].
    unfold executor_prompt. rewrite Hag. simpl.
    apply get_functions_prompt_and_tools_Return in Hp
      as (_ & _ & Hexcl & l' & _ & Hp).
    assert (truthy (include_df_in_prompt o) = false) as Hinc.
    { destruct Hexcl as [-> | ?]; [done|congruence]. }
    rewrite Hs in Hp.
    destruct df as [d|items|c]; [|destruct Hp as (dfs & -> & Hp)|done].
    + rewrite get_functions_single_prompt_plain in Hp by done.
      by injection Hp as _ <- _.
    + destruct (get_functions_multi_prompt_prefix _ _ _ _ _ _ _ Hp)
        as [pre Hpre].
      rewrite (get_functions_multi_prompt_plain _ _ _ _ _ pre) in Hp by done.
      injection Hp as _ <- _. by exists dfs, pre.
Qed.

End AssemblyClaims.

(* ===================================================================== *)
(** ** Further properties of the entry point and its helpers *)
(* ===================================================================== *)

Section HelperLogs.
Context {D : Type} `{!Dataset D} `{!PyEnv} `{!PromptConstants}
  `{!ReactAgentCheck D}.

(** The function-call helpers render and substitute before they construct
    the tool. *)
Lemma get_functions_single_prompt_Raise (d : D) p s inc n l e :
  _get_functions_single_prompt d p s inc n = (l, Raise e) → l = [].
Proof.
  rewrite get_functions_single_prompt_eq.
  destruct (functions_single_suffix d s inc n); [|done]. by intros [= <- _].
Qed.

Lemma get_functions_multi_prompt_Raise (dfs : list D) p s inc n l e :
  _get_functions_multi_prompt dfs p s inc n = (l, Raise e) → l = [].
Proof.
  rewrite get_functions_multi_prompt_eq.
  destruct (functions_multi_suffix dfs s inc n); [by intros [= <- _]|].
  destruct (str_format _ _); [|done]. by intros [= <- _].
Qed.

(** What the function-call validating helper leaves in the log: nothing but
    the display option when it raises, the display option and one tool when
    it returns. *)
Lemma get_functions_prompt_and_tools_log (df : PyObj D) p s iv inc n l r :
  _get_functions_prompt_and_tools df p s iv inc n = (l, r) →
  match r with
  | Raise _ => nothing_constructed l
  | Return (_, tools) =>
      ∃ df_locals, l = [SetDisplayOption; ToolCreated df_locals] ∧
                   tools = [PythonAstREPLTool df_locals]
  end.
Proof.
  rewrite get_functions_prompt_and_tools_unfold. unfold nothing_constructed.
  destruct pandas_importable; [|intros [= <- <-]; constructor].
  destruct (is_not_None iv); [intros [= <- <-]; by repeat constructor|].
  destruct (is_not_None inc && is_not_None s);
    [intros [= <- <-]; by repeat constructor|].
  destruct df as [d|items|c];
    [|destruct (dataframes_of items) as [dfs|]|]; simpl;
    try (intros [= <- <-]; by repeat constructor).
  - destruct (_get_functions_single_prompt d p s inc n) as [l' [e|r']] eqn:Hr;
      simpl; intros [= <- <-].
    + apply get_functions_single_prompt_Raise in Hr as ->.
      by repeat constructor.
    + apply get_functions_single_prompt_Return in Hr as (-> & msg & ->). eauto.
  - destruct (_get_functions_multi_prompt dfs p s inc n) as [l' [e|r']] eqn:Hr;
      simpl; intros [= <- <-].
    + apply get_functions_multi_prompt_Raise in Hr as ->.
      by repeat constructor.
    + apply get_functions_multi_prompt_Return in Hr as (-> & msg & ->). eauto.
Qed.

(** The text-action validating helper constructs the tool before it renders:
    when it returns, the log holds the display option and one tool. *)
Lemma get_prompt_and_tools_log (df : PyObj D) p s iv inc n extra l pt tools :
  _get_prompt_and_tools df p s iv inc n extra = (l, Return (pt, tools)) →
  ∃ df_locals, l = [SetDisplayOption; ToolCreated df_locals] ∧
               tools = PythonAstREPLTool df_locals :: extra.
Proof.
  intros Hp. apply get_prompt_and_tools_shape in Hp.
  destruct df as [d|items|c]; [| |done].
  - destruct Hp as (-> & -> & _). eauto.
  - destruct Hp as (dfs & _ & -> & -> & _). eauto.
Qed.

(** A call that returns had no clashing executor keyword. *)
Lemma create_Return_no_keyword_clash llm (df : PyObj D) o log ex :
  create_pandas_dataframe_agent llm df o = (log, Return ex) →
  no_keyword_clash o.
Proof.
  intros Hrun.
  destruct (decide (Forall (λ k,
    default ∅ (agent_executor_kwargs o) !! k = None) executor_keywords))
    as [Hno|Hclash]; [done|exfalso].
  destruct (decide (known_protocol (agent_type o))) as [[Ha|Ha]|Ha].
  - rewrite create_text_action_unfold in Hrun by done.
    destruct (_get_prompt_and_tools _ _ _ _ _ _ _) as [l [e|[pt tools]]]; [done|].
    destruct (react_agent_check tools pt); [done|].
    unfold finish in Hrun. by rewrite keyword_clash_raises in Hrun.
  - rewrite create_function_call_unfold in Hrun by done.
    destruct (_get_functions_prompt_and_tools _ _ _ _ _ _)
      as [l [e|[prompt base]]]; [done|].
    unfold finish in Hrun. by rewrite keyword_clash_raises in Hrun.
  - by rewrite create_unknown_protocol in Hrun.
Qed.

Lemma append_empty_r (s : string) : s +:+ "" = s.
Proof.
  induction s as [|c s IH]; [done|].
  change (String c (s +:+ "") = String c s). by rewrite IH.
Qed.

End HelperLogs.

Section Validation.
Context {D : Type} `{!Dataset D} `{!PyEnv} `{!PromptConstants}
  `{!ReactAgentCheck D}.

(** X1. When pandas cannot be imported, every call with one of the three
    known protocols raises the import error before anything else happens:
    no display option is written, no argument is validated, no tool or agent
    is constructed. *)
Theorem X1_missing_pandas_preempts_validation llm (df : PyObj D) o :
  pandas_importable = false →
  known_protocol (agent_type o) →
  create_pandas_dataframe_agent llm df o = ([], Raise MissingDependency).
Proof.
  intros Hpd [Ha|Ha].
  - rewrite create_text_action_unfold by done.
    rewrite get_prompt_and_tools_unfold. by rewrite Hpd.
  - rewrite create_function_call_unfold by done.
    rewrite get_functions_prompt_and_tools_unfold. by rewrite Hpd.
Qed.

(** X2. A dataset argument that is neither a dataframe nor a list of
    dataframes (a list with one foreign item included) is refused with the
    type error, for all three protocols, once the import and the option checks
    have passed; only the display option has been written. For a list the
    message names the class of the list, not of the offending item. *)
Theorem X2_foreign_argument_rejected llm (df : PyObj D) o :
  pandas_importable = true →
  known_protocol (agent_type o) →
  include_df_in_prompt o = None ∨ suffix o = None →
  (function_call_protocol (agent_type o) → input_variables o = None) →
  dataset_set df = None →
  create_pandas_dataframe_agent llm df o
  = ([SetDisplayOption], Raise (TypeMismatch df)) ∧
  (∀ items, df = PyList items →
     TypeMismatch df = ValueError "Expected pandas object, got <class 'list'>").
Proof.
  intros Hpd Ha Hexcl Hiv Hset. split; [|by intros items ->].
  pose proof (exclusive_not_conflict _ _ Hexcl) as Hok.
  destruct Ha as [Ha|Ha].
  - rewrite create_text_action_unfold by done.
    rewrite get_prompt_and_tools_unfold. rewrite Hpd, Hok.
    destruct df as [d|items|c]; [done| |done].
    simpl in Hset. by rewrite Hset.
  - rewrite create_function_call_unfold by done.
    rewrite get_functions_prompt_and_tools_unfold.
    rewrite Hpd, (Hiv Ha), Hok. simpl.
    destruct df as [d|items|c]; [done| |done].
    simpl in Hset. by rewrite Hset.
Qed.

(** X3. The text-action validating helper returns a prompt and tools
    exactly when pandas is importable, suffix and include flag are not both
    set, the dataset argument is a dataframe or a list of dataframes, and
    every table whose preview the input-variable list asks for renders. *)
Theorem X3_text_action_assembly_conditions (df : PyObj D) p s iv inc n extra :
  (∃ l pt tools,
     _get_prompt_and_tools df p s iv inc n extra = (l, Return (pt, tools)))
  ↔ pandas_importable = true
    ∧ (inc = None ∨ s = None)
    ∧ match df with
      | PyDataFrame d =>
          "df_head" ∈ resolved_input_variables false s inc iv →
          ∃ md, to_markdown (head n d) = Return md
      | PyList items =>
          ∃ dfs, items = PyDataFrame <$> dfs ∧
            ("dfs_head" ∈ resolved_input_variables true s inc iv →
             ∃ mds, rendered n dfs mds)
      | PyOther _ => False
      end.
Proof.
  split.
  - intros (l & pt & tools & Hp).
    pose proof Hp as Hshape. apply get_prompt_and_tools_shape in Hshape.
    apply get_prompt_and_tools_Return in Hp as (Hpd & Hexcl & _).
    split; [done|]. split; [done|].
    destruct df as [d|items|c]; [| |done].
    + destruct Hshape as (_ & _ & pv & _ & Hpv). intros Hin.
      rewrite bool_decide_true in Hpv by done.
      destruct Hpv as (md & Hmd & _). eauto.
    + destruct Hshape as (dfs & -> & _ & _ & dfs_head & _ & Hpv).
      exists dfs. split; [done|]. intros Hin.
      rewrite bool_decide_true in Hpv by done.
      destruct Hpv as (mds & Hmds & _). eauto.
  - intros (Hpd & Hexcl & Hdf).
    rewrite get_prompt_and_tools_unfold, Hpd.
    rewrite exclusive_not_conflict by done.
    destruct df as [d|items|c]; [|destruct Hdf as (dfs & -> & Hdf)|done].
    + rewrite get_single_prompt_eq. cbv zeta. case_bool_decide as Hin.
      * destruct (Hdf Hin) as [md ->]. simpl. eauto.
      * simpl. eauto.
    + rewrite (proj2 (dataframes_of_Some _ dfs) eq_refl).
      rewrite get_multi_prompt_eq. cbv zeta. case_bool_decide as Hin.
      * destruct (Hdf Hin) as [mds Hmds].
        rewrite (proj2 (render_heads_Return n dfs _)) by eauto. simpl. eauto.
      * simpl. eauto.
Qed.

(** X4. Outside the text-action protocol construction is all or nothing as
    long as the executor keywords do not clash: whenever such a call raises,
    no tool and no agent has been constructed. *)
Theorem X4_failure_constructs_nothing llm (df : PyObj D) o log e :
  agent_type o ≠ ZERO_SHOT_REACT_DESCRIPTION →
  no_keyword_clash o →
  create_pandas_dataframe_agent llm df o = (log, Raise e) →
  nothing_constructed log.
Proof.
  intros Hnot Hno Hrun.
  destruct (decide (known_protocol (agent_type o))) as [[Ha|Ha]|Ha]; [done| |].
  - rewrite create_function_call_unfold in Hrun by done.
    destruct (_get_functions_prompt_and_tools _ _ _ _ _ _)
      as [l [e'|[prompt base]]] eqn:Hp.
    + injection Hrun as <- _. by apply get_functions_prompt_and_tools_log in Hp.
    + match type of Hrun with
      | context [finish ?k llm o l prompt ?t] =>
          destruct (finish_ok k llm o l prompt t Hno) as (ex & Hex & _)
      end.
      rewrite Hex in Hrun. discriminate.
  - rewrite create_unknown_protocol in Hrun by done.
    injection Hrun as <- _. constructor.
Qed.

(** X5. When the unpacked executor keywords repeat a keyword the entry
    point passes explicitly, the call never returns, on any protocol. On a
    function-call protocol it raises in one of two ways: validation or
    substitution fails with nothing constructed, or the tool and the agent
    are constructed and the final call raises a [TypeError]. *)
Theorem X5_keyword_clash_never_returns llm (df : PyObj D) o kw k :
  agent_executor_kwargs o = Some kw →
  k ∈ executor_keywords →
  is_Some (kw !! k) →
  (∀ log ex, create_pandas_dataframe_agent llm df o ≠ (log, Return ex)) ∧
  (function_call_protocol (agent_type o) →
   ∃ log e, create_pandas_dataframe_agent llm df o = (log, Raise e) ∧
     (nothing_constructed log ∨
      ∃ msg df_locals kind tools,
        e = TypeError msg ∧
        log = [SetDisplayOption; ToolCreated df_locals; AgentCreated kind tools] ∧
        tools = PythonAstREPLTool df_locals :: extra_tools o)).
Proof.
  intros Hkw Hk [v Hv].
  assert (¬ no_keyword_clash o) as Hclash.
  { unfold no_keyword_clash. rewrite Forall_forall. intros Hall.
    specialize (Hall k Hk). rewrite Hkw in Hall. simpl in Hall. congruence. }
  split.
  - intros log ex Hrun. by apply create_Return_no_keyword_clash in Hrun.
  - intros Ha. rewrite create_function_call_unfold by done.
    destruct (_get_functions_prompt_and_tools _ _ _ _ _ _)
      as [l [e'|[prompt base]]] eqn:Hp;
      apply get_functions_prompt_and_tools_log in Hp.
    + eauto.
    + destruct Hp as (df_locals & -> & ->). unfold finish.
      rewrite keyword_clash_raises by done. simpl. eauto 12.
Qed.

(** X6. The tool-calling protocol behaves as the legacy function-calling
    protocol on every input: same events, same exception or same executor,
    except that the agent is of the tool-calling kind. *)
Theorem X6_tool_calling_mirrors_function_calling llm (df : PyObj D) o :
  create_pandas_dataframe_agent llm df (with_agent_type OPENAI_TOOLS o)
  = as_tools_call
      (create_pandas_dataframe_agent llm df
         (with_agent_type OPENAI_FUNCTIONS o)).
Proof.
  rewrite !create_function_call_unfold by (by (left + right)). simpl.
  destruct (_get_functions_prompt_and_tools _ _ _ _ _ _)
    as [l [e|[prompt base]]] eqn:Hp;
    apply get_functions_prompt_and_tools_log in Hp.
  - unfold as_tools_call. simpl. f_equal.
    induction Hp as [|ev l -> _ IH]; [done|]. by rewrite fmap_cons, <- IH.
  - destruct Hp as (df_locals & -> & ->).
    unfold finish, as_tools_call, from_agent_and_tools. simpl.
    by case_bool_decide.
Qed.

(** X15. The text-action protocol is not all or nothing: when the helper
    has returned and the react agent rejects the prompt, the call raises the
    react agent's error with the execution tool already constructed, and no
    agent. *)
Theorem X15_react_rejection_follows_tool llm (df : PyObj D) o l pt tools e :
  agent_type o = ZERO_SHOT_REACT_DESCRIPTION →
  _get_prompt_and_tools df (prefix o) (suffix o) (input_variables o)
    (include_df_in_prompt o) (number_of_head_rows o) (extra_tools o)
  = (l, Return (pt, tools)) →
  react_agent_check tools pt = Raise e →
  create_pandas_dataframe_agent llm df o = (l, Raise e) ∧
  ∃ df_locals,
    l = [SetDisplayOption; ToolCreated df_locals] ∧
    tools = PythonAstREPLTool df_locals :: extra_tools o ∧
    ¬ nothing_constructed l.
Proof.
  intros Ha Hp Hcheck. split.
  - pose proof (create_text_action_finish llm df o l pt tools Ha Hp) as Hfin.
    by rewrite Hcheck in Hfin.
  - apply get_prompt_and_tools_log in Hp as (df_locals & -> & ->).
    exists df_locals. split; [done|]. split; [done|].
    unfold nothing_constructed. intros Hall.
    apply Forall_cons_1 in Hall as [_ Hall].
    by apply Forall_cons_1 in Hall as [? _].
Qed.

(** X16. On the text-action protocol a table that fails to render fails the
    call after the execution tool was constructed: for a bare dataframe whose
    preview slot is declared the call raises the rendering error, and for a
    list whose preview slot is declared and whose tables do not all render it
    raises as well, in both cases with the display option written and the
    tool constructed, and no agent. *)
Theorem X16_text_action_rendering_failure llm (d : D) (dfs : list D) o :
  pandas_importable = true →
  include_df_in_prompt o = None ∨ suffix o = None →
  agent_type o = ZERO_SHOT_REACT_DESCRIPTION →
  (∀ e,
     "df_head" ∈ resolved_input_variables false (suffix o)
                   (include_df_in_prompt o) (input_variables o) →
     to_markdown (head (number_of_head_rows o) d) = Raise e →
     create_pandas_dataframe_agent llm (PyDataFrame d) o
     = ([SetDisplayOption; ToolCreated {["df" := d]}], Raise e)) ∧
  ("dfs_head" ∈ resolved_input_variables true (suffix o)
                  (include_df_in_prompt o) (input_variables o) →
   (∀ mds, ¬ rendered (number_of_head_rows o) dfs mds) →
   ∃ e, create_pandas_dataframe_agent llm (PyList (PyDataFrame <$> dfs)) o
        = ([SetDisplayOption; ToolCreated (bind_locals 0 dfs ∅)], Raise e)).
Proof.
  intros Hpd Hexcl Ha. split.
  - intros e Hin Hd. rewrite create_text_action_unfold by done.
    rewrite get_prompt_and_tools_unfold, Hpd.
    rewrite exclusive_not_conflict by done.
    rewrite get_single_prompt_eq. cbv zeta.
    rewrite bool_decide_true by done. by rewrite Hd.
  - intros Hin Hnone. rewrite create_text_action_unfold by done.
    rewrite get_prompt_and_tools_list by done.
    rewrite get_multi_prompt_eq. cbv zeta.
    rewrite bool_decide_true by done.
    destruct (render_heads (number_of_head_rows o) dfs) as [e|h] eqn:Hh.
    + simpl. eauto.
    + apply render_heads_Return in Hh as (mds & Hmds & _).
      by destruct (Hnone mds).
Qed.

End Validation.

Section PromptSelection.
Context {D : Type} `{!Dataset D} `{!PyEnv} `{!PromptConstants}
  `{!ReactAgentCheck D}.

(** X7. Without a caller-supplied suffix a successful text-action call uses
    a built-in suffix: the one with the preview (single or multi, by the shape
    of the dataset argument) when the include flag is [True], and the one
    without preview when the flag is [False] or [None]. *)
Theorem X7_built_in_suffix llm (df : PyObj D) o log ex :
  agent_type o = ZERO_SHOT_REACT_DESCRIPTION →
  suffix o = None →
  create_pandas_dataframe_agent llm df o = (log, Return ex) →
  ∃ pt, executor_prompt ex = ZeroShotPrompt pt ∧
    PromptTemplate.suffix pt
    = match include_df_in_prompt o, df with
      | Some true, PyDataFrame _ => SUFFIX_WITH_DF
      | Some true, _ => SUFFIX_WITH_MULTI_DF
      | _, _ => SUFFIX_NO_DF
      end.
Proof.
  intros Ha Hs Hrun.
  apply create_text_action_Return in Hrun
    as (pt & tools & l & Hp & _ & _ & Hag & _); [|done].
  exists pt. unfold executor_prompt. rewrite Hag. split; [done|].
  apply get_prompt_and_tools_shape in Hp. rewrite Hs in Hp.
  destruct df as [d|items|c]; [| |done].
  - destruct Hp as (_ & _ & pv & -> & _). simpl.
    by destruct (include_df_in_prompt o) as [[]|].
  - destruct Hp as (dfs & _ & _ & _ & dfs_head & -> & _). simpl.
    by destruct (include_df_in_prompt o) as [[]|].
Qed.

(** X8. A successful text-action call uses the caller's prefix as it is, and
    otherwise the built-in single or multi prefix, by the shape of the
    dataset argument; the prompt is created from the complete tool list. *)
Theorem X8_text_action_prefix llm (df : PyObj D) o log ex :
  agent_type o = ZERO_SHOT_REACT_DESCRIPTION →
  create_pandas_dataframe_agent llm df o = (log, Return ex) →
  ∃ pt, executor_prompt ex = ZeroShotPrompt pt ∧
    PromptTemplate.prefix pt
    = match prefix o, df with
      | Some p, _ => p
      | None, PyDataFrame _ => PREFIX
      | None, _ => MULTI_DF_PREFIX
      end ∧
    PromptTemplate.tools pt = AgentExecutor.tools ex.
Proof.
  intros Ha Hrun.
  apply create_text_action_Return in Hrun
    as (pt & tools & l & Hp & _ & _ & Hag & Htl); [|done].
  exists pt. unfold executor_prompt. rewrite Hag, Htl. split; [done|].
  apply get_prompt_and_tools_shape in Hp.
  destruct df as [d|items|c]; [| |done].
  - destruct Hp as (_ & -> & pv & -> & _). simpl. by destruct (prefix o).
  - destruct Hp as (dfs & _ & _ & -> & dfs_head & -> & _). simpl.
    by destruct (prefix o).
Qed.

(** X9. The slots a successful text-action call fills in advance are never
    [input] or [agent_scratchpad]: for a bare dataframe at most [df_head] is
    bound; for a list at most [num_dfs] and [dfs_head], and [num_dfs] is bound
    to the number of dataframes exactly when [num_dfs] or [dfs_head] is in the
    input-variable list. *)
Theorem X9_prefilled_slots llm (df : PyObj D) o log ex :
  agent_type o = ZERO_SHOT_REACT_DESCRIPTION →
  create_pandas_dataframe_agent llm df o = (log, Return ex) →
  ∃ pt, executor_prompt ex = ZeroShotPrompt pt ∧
    match df with
    | PyDataFrame _ =>
        ∀ k, is_Some (PromptTemplate.partial_variables pt !! k) → k = "df_head"
    | PyList items =>
        (∀ k, is_Some (PromptTemplate.partial_variables pt !! k) →
              k = "num_dfs" ∨ k = "dfs_head") ∧
        PromptTemplate.partial_variables pt !! "num_dfs"
        = if bool_decide ("num_dfs" ∈ PromptTemplate.input_variables pt)
             || bool_decide ("dfs_head" ∈ PromptTemplate.input_variables pt)
          then Some (pretty (length items)) else None
    | PyOther _ => False
    end.
Proof.
  intros Ha Hrun.
  apply create_text_action_Return in Hrun
    as (pt & tools & l & Hp & _ & _ & Hag & _); [|done].
  exists pt. unfold executor_prompt. rewrite Hag. split; [done|].
  apply get_prompt_and_tools_shape in Hp.
  destruct df as [d|items|c]; [| |done].
  - destruct Hp as (_ & _ & pv & -> & Hpv). simpl.
    intros k [v Hk]. case_bool_decide.
    + destruct Hpv as (md & _ & ->).
      by apply lookup_singleton_Some in Hk as [<- _].
    + subst pv. by rewrite lookup_empty in Hk.
  - destruct Hp as (dfs & -> & _ & _ & dfs_head & -> & Hpv). cbv zeta in Hpv.
    simpl. rewrite length_fmap. split.
    + intros k [v Hk].
      destruct (decide (k = "num_dfs")) as [|Hn]; [by left|].
      destruct (decide (k = "dfs_head")) as [|Hh]; [by right|].
      by rewrite multi_partial_variables_other in Hk.
    + rewrite multi_partial_variables_num_dfs.
      case_bool_decide as Hin.
      * destruct Hpv as (mds & _ & ->). simpl. by rewrite orb_true_r.
      * subst dfs_head. simpl. by rewrite orb_false_r.
Qed.

(** X10. In the text-action helpers a caller-supplied suffix takes
    precedence over the include flag: called with a suffix, either helper
    returns the same prompt and tools whatever the flag. *)
Theorem X10_suffix_overrides_include_flag (d : D) (dfs : list D) p s iv
    inc inc' n extra :
  _get_single_prompt d p (Some s) iv inc n extra
  = _get_single_prompt d p (Some s) iv inc' n extra ∧
  _get_multi_prompt dfs p (Some s) iv inc n extra
  = _get_multi_prompt dfs p (Some s) iv inc' n extra.
Proof. by rewrite !get_single_prompt_eq, !get_multi_prompt_eq. Qed.

(** X11. Each dataframe of a list gets a binding of its own: the dictionary
    built by the naming loop has as many entries as the list has
    dataframes. *)
Theorem X11_one_binding_per_dataframe (dfs : list D) :
  size (bind_locals 0 dfs ∅) = length dfs.
Proof.
  rewrite <- size_dom, bind_locals_dom.
  rewrite size_list_to_set.
  - by rewrite length_fmap, length_seq.
  - apply NoDup_fmap_2; [apply df_name_inj|apply NoDup_seq].
Qed.

End PromptSelection.

Section FunctionCallPrompts.
Context {D : Type} `{!Dataset D} `{!PyEnv} `{!PromptConstants}
  `{!ReactAgentCheck D}.

(** X12. On a function-call protocol, a bare dataframe without a suffix and
    with the include flag [False] or [None] always assembles: the system
    message is the prefix alone (the caller's, or the built-in one), with no
    substitution applied to it, and the tool list is the execution tool
    followed by the extra tools. *)
Theorem X12_function_call_prefix_alone llm (d : D) o :
  pandas_importable = true →
  function_call_protocol (agent_type o) →
  input_variables o = None →
  suffix o = None →
  truthy (include_df_in_prompt o) = false →
  no_keyword_clash o →
  ∃ log ex,
    create_pandas_dataframe_agent llm (PyDataFrame d) o = (log, Return ex) ∧
    executor_prompt ex = FunctionsPrompt (default PREFIX_FUNCTIONS (prefix o)) ∧
    AgentExecutor.tools ex = PythonAstREPLTool {["df" := d]} :: extra_tools o.
Proof.
  intros Hpd Ha Hiv Hs Hinc Hno.
  assert (_get_functions_prompt_and_tools (PyDataFrame d) (prefix o) (suffix o)
            (input_variables o) (include_df_in_prompt o) (number_of_head_rows o)
          = ([SetDisplayOption; ToolCreated {["df" := d]}],
             Return (FunctionsPrompt (default PREFIX_FUNCTIONS (prefix o)),
                     [PythonAstREPLTool {["df" := d]}]))) as Hp.
  { rewrite get_functions_prompt_and_tools_unfold. rewrite Hpd, Hiv, Hs.
    rewrite andb_false_r.
    rewrite get_functions_single_prompt_plain by done. simpl.
    by rewrite append_empty_r. }
  by apply (create_function_call_finish llm _ o _ _ Ha Hp).
Qed.



End FunctionCallPrompts.

(* ===================================================================== *)
(** ** The claims at concrete calls *)
(* ===================================================================== *)

Import Sample.

Lemma sample_no_keyword_clash (o : Options Table) :
  agent_executor_kwargs o = None → no_keyword_clash o.
Proof.
  intros Hkw. unfold no_keyword_clash. rewrite Hkw. simpl.
  apply Forall_forall. intros k _. apply lookup_empty.
Qed.

(** Without the pandas package every known protocol stops at the import,
    whatever the other arguments. *)
Example no_pandas_raises_import_error :
  @create_pandas_dataframe_agent Table _ env_no_pandas _ _ "llm"
    (PyDataFrame ds0)
    (with_input_variables (Some ["input"])
       (with_agent_type OPENAI_TOOLS default_options))
  = ([], Raise MissingDependency).
Proof. reflexivity. Qed.

(** With the built-in templates the react agent of the sample rejects the
    prompt of a text-action call, after the tool was constructed. *)
Example built_in_templates_rejected :
  create_pandas_dataframe_agent "llm" (PyDataFrame ds0) default_options
  = ([SetDisplayOption; ToolCreated {["df" := ds0]}],
     Raise (ValueError "Prompt missing required variables")).
Proof. reflexivity. Qed.

(** C1 at [df=[ds0, ds1]], text-action protocol. *)
Lemma C1_witness :
  ∃ log ex,
    create_pandas_dataframe_agent "llm"
      (PyList [PyDataFrame ds0; PyDataFrame ds1]) react_options
    = (log, Return ex) ∧
    ∃ dfs, [PyDataFrame ds0; PyDataFrame ds1] = PyDataFrame <$> dfs ∧
      executor_locals ex = Some (bind_locals 0 dfs ∅) ∧
      (∀ k d, bind_locals 0 dfs ∅ !! k = Some d
              ↔ ∃ j, k = df_name j ∧ dfs !! j = Some d) ∧
      dom (bind_locals 0 dfs ∅) = list_to_set (df_name <$> seq 0 (length dfs)) ∧
      bind_locals 0 dfs ∅ !! "df" = None.
Proof.
  eexists _, _. split; [reflexivity|].
  eapply (C1_bindings_follow_argument_shape "llm"
            (PyList [PyDataFrame ds0; PyDataFrame ds1]) react_options).
  reflexivity.
Defined.

(** C1 as stated fails for a one-element list: the dataset is bound to
    [df1], where the binding rule by cardinality asks for [df]. *)
Lemma C1_counterexample :
  let o := with_agent_type OPENAI_TOOLS default_options in
  dataset_set (PyList [PyDataFrame ds0]) = Some [ds0] ∧
  (∃ log ex,
     create_pandas_dataframe_agent "llm" (PyList [PyDataFrame ds0]) o
     = (log, Return ex) ∧
     executor_locals ex = Some {["df1" := ds0]}) ∧
  ¬ (∀ log ex,
       create_pandas_dataframe_agent "llm" (PyList [PyDataFrame ds0]) o
       = (log, Return ex) →
       executor_locals ex = Some (spec_bindings [ds0])).
Proof.
  cbv zeta. split; [reflexivity|]. split.
  - eexists _, _. split; reflexivity.
  - intros Hclaim. specialize (Hclaim _ _ eq_refl).
    apply (f_equal (λ r, r ≫= (.!! "df"))) in Hclaim.
    vm_compute in Hclaim. discriminate.
Qed.

(** C2 at the text-action protocol with a suffix and the default include
    flag. *)
Lemma C2_witness :
  ∃ e, create_pandas_dataframe_agent "llm" (PyDataFrame ds0)
         (with_suffix (Some "Begin!") default_options)
       = ([SetDisplayOption], Raise e)
    ∧ nothing_constructed ([SetDisplayOption] : list (Event Table))
    ∧ e = ConfigurationConflict.
Proof.
  apply (C2_suffix_with_include_flag_fails "llm" (PyDataFrame ds0)
           (with_suffix (Some "Begin!") default_options) "Begin!" true);
    [reflexivity|by left|reflexivity|reflexivity].
Defined.

(** C2 as stated fails for a function-call protocol when an input-variable
    list is supplied as well: the error is [UnsupportedOption]. *)
Lemma C2_counterexample :
  let o := with_input_variables (Some ["input"; "agent_scratchpad"])
             (with_suffix (Some "Begin!")
                (with_agent_type OPENAI_FUNCTIONS default_options)) in
  suffix o = Some "Begin!" ∧ include_df_in_prompt o = Some true ∧
  create_pandas_dataframe_agent "llm" (PyDataFrame ds0) o
  = ([SetDisplayOption], Raise UnsupportedOption) ∧
  ¬ (∃ log, create_pandas_dataframe_agent "llm" (PyDataFrame ds0) o
            = (log, Raise ConfigurationConflict)).
Proof.
  simpl. split; [done|]. split; [done|]. split; [reflexivity|].
  intros [log Hclaim]. vm_compute in Hclaim. discriminate.
Qed.

(** C6 at a member of [AgentType] the entry point does not handle. *)
Lemma C6_witness :
  create_pandas_dataframe_agent "llm" (PyDataFrame ds0)
    (with_agent_type "self-ask-with-search" default_options)
  = ([], Raise (UnsupportedProtocol "self-ask-with-search"))
  ∧ nothing_constructed ([] : list (Event Table)).
Proof.
  apply (C6_unknown_protocol_rejected "llm" (PyDataFrame ds0)
           (with_agent_type "self-ask-with-search" default_options)).
  unfold known_protocol. simpl. intros [?|[?|?]]; discriminate.
Defined.

(** C7 at the tool-calling protocol with an explicit input-variable list,
    pandas installed. *)
Lemma C7_witness :
  create_pandas_dataframe_agent "llm" (PyDataFrame ds0)
    (with_input_variables (Some ["input"; "agent_scratchpad"])
       (with_agent_type OPENAI_TOOLS default_options))
  = ([SetDisplayOption], Raise UnsupportedOption).
Proof.
  exact (C7_input_variables_unsupported "llm" (PyDataFrame ds0)
           (with_input_variables (Some ["input"; "agent_scratchpad"])
              (with_agent_type OPENAI_TOOLS default_options))
           ["input"; "agent_scratchpad"] (or_intror eq_refl) eq_refl).
Defined.

(** C7 as stated fails where pandas is not installed: the same call raises
    the import error, not [UnsupportedOption]. *)
Lemma C7_counterexample :
  let o := with_input_variables (Some ["input"; "agent_scratchpad"])
             (with_agent_type OPENAI_TOOLS (default_options (D:=Table))) in
  function_call_protocol (agent_type o) ∧
  input_variables o = Some ["input"; "agent_scratchpad"] ∧
  @create_pandas_dataframe_agent Table _ env_no_pandas _ _ "llm"
    (PyDataFrame ds0) o
  = ([], Raise MissingDependency) ∧
  ¬ (∃ log, @create_pandas_dataframe_agent Table _ env_no_pandas _ _ "llm"
              (PyDataFrame ds0) o
            = (log, Raise UnsupportedOption)).
Proof.
  cbv zeta. split; [by right|]. split; [reflexivity|]. split; [reflexivity|].
  intros [log Hclaim]. vm_compute in Hclaim. discriminate.
Qed.

(** C9 at a legacy function-call call that passes only a suffix, and at a
    tool-calling call that returns with a suffix. *)
Lemma C9_witness :
  let o := with_agent_type OPENAI_TOOLS
             (with_include_df_in_prompt None
                (with_suffix (Some "Begin!") (default_options (D:=Table)))) in
  create_pandas_dataframe_agent "llm" (PyList [PyDataFrame ds0; PyDataFrame ds1])
    (with_agent_type OPENAI_FUNCTIONS (with_suffix (Some "Begin!") default_options))
  = ([SetDisplayOption], Raise ConfigurationConflict) ∧
  ∃ log ex,
    create_pandas_dataframe_agent "llm" (PyDataFrame ds0) o = (log, Return ex) ∧
    suffix o = Some "Begin!" ∧
    include_df_in_prompt o = None.
Proof.
  cbv zeta.
  destruct (C9_default_include_flag_conflicts_with_suffix (D:=Table))
    as (_ & Hconflict & Hnone).
  split.
  - exact (Hconflict "llm" (PyList [PyDataFrame ds0; PyDataFrame ds1])
             OPENAI_FUNCTIONS "Begin!").
  - eexists _, _. split; [reflexivity|]. split; [reflexivity|].
    eapply (Hnone "llm" (PyDataFrame ds0)
              (with_agent_type OPENAI_TOOLS
                 (with_include_df_in_prompt None
                    (with_suffix (Some "Begin!") default_options))) "Begin!");
      reflexivity.
Defined.

(** C9 as stated fails where pandas is not installed: the call that passes
    only a suffix raises the import error, not [ConfigurationConflict]. *)
Lemma C9_counterexample :
  let o := with_suffix (Some "Begin!") (default_options (D:=Table)) in
  suffix o = Some "Begin!" ∧ include_df_in_prompt o = Some true ∧
  @create_pandas_dataframe_agent Table _ env_no_pandas _ _ "llm"
    (PyDataFrame ds0) o
  = ([], Raise MissingDependency) ∧
  ¬ (∃ log, @create_pandas_dataframe_agent Table _ env_no_pandas _ _ "llm"
              (PyDataFrame ds0) o
            = (log, Raise ConfigurationConflict)).
Proof.
  cbv zeta. split; [reflexivity|]. split; [reflexivity|]. split; [reflexivity|].
  intros [log Hclaim]. vm_compute in Hclaim. discriminate.
Qed.

(** C4 at a text-action call whose prompt the react agent accepts, and at
    the legacy function-call protocol: the empty list is accepted. *)
Lemma C4_witness :
  (∃ log ex,
     create_pandas_dataframe_agent "llm" (PyList []) react_options
     = (log, Return ex)
     ∧ AgentExecutor.tools ex = [PythonAstREPLTool (∅ : gmap string Table)]) ∧
  (∃ log ex,
     create_pandas_dataframe_agent "llm" (PyList [])
       (with_agent_type OPENAI_FUNCTIONS default_options) = (log, Return ex)
     ∧ AgentExecutor.tools ex = [PythonAstREPLTool (∅ : gmap string Table)]
     ∧ executor_prompt ex
       = FunctionsPrompt ("You have 0 dataframes df1, df2, etc. "
                            +:+ "Heads of dfs: ")).
Proof.
  split.
  - destruct (@C4_empty_collection_accepted Table _ env _ _ "llm" react_options
                eq_refl (or_intror eq_refl)) as (_ & (pt & _ & Htext) & _).
    specialize (Htext eq_refl).
    destruct (react_agent_check _ pt) as [e|u].
    + exfalso. apply (f_equal returned) in Htext.
      vm_compute in Htext. discriminate.
    + exact (Htext (sample_no_keyword_clash react_options eq_refl)).
  - destruct (@C4_empty_collection_accepted Table _ env _ _ "llm"
                (with_agent_type OPENAI_FUNCTIONS default_options)
                eq_refl (or_intror eq_refl)) as (_ & _ & Hfunctions).
    apply Hfunctions;
      [by left|reflexivity|by apply sample_no_keyword_clash
      |reflexivity|reflexivity].
Defined.

(** C4 as stated fails: a function-call call over the empty list returns an
    executor. *)
Lemma C4_counterexample :
  let o := with_agent_type OPENAI_FUNCTIONS (default_options (D:=Table)) in
  (∃ log ex,
     create_pandas_dataframe_agent "llm" (PyList ([] : list (PyObj Table))) o
     = (log, Return ex)) ∧
  ¬ (∃ log e,
       create_pandas_dataframe_agent "llm" (PyList ([] : list (PyObj Table))) o
       = (log, Raise e)).
Proof.
  cbv zeta. split.
  - eexists _, _. reflexivity.
  - intros (log & e & Hclaim).
    apply (f_equal returned) in Hclaim. vm_compute in Hclaim. discriminate.
Qed.

(** C5 at a list of two dataframes, preview included. *)
Lemma C5_witness :
  ∃ log ex,
    create_pandas_dataframe_agent "llm"
      (PyList [PyDataFrame ds0; PyDataFrame ds1]) react_options
    = (log, Return ex) ∧
    ∃ pt, executor_prompt ex = ZeroShotPrompt pt ∧
      PromptTemplate.input_variables pt
      = ["input"; "agent_scratchpad"; "num_dfs"; "dfs_head"].
Proof.
  eexists _, _. split; [reflexivity|].
  eapply (C5_default_input_variables "llm"
            (PyList [PyDataFrame ds0; PyDataFrame ds1]) react_options);
    reflexivity.
Defined.

(** C5 as stated fails for a list of dataframes with the preview excluded:
    [num_dfs] is declared all the same. *)
Lemma C5_counterexample :
  let o := with_include_df_in_prompt (Some false) react_options in
  (∃ log ex pt,
     create_pandas_dataframe_agent "llm"
       (PyList [PyDataFrame ds0; PyDataFrame ds1]) o = (log, Return ex) ∧
     executor_prompt ex = ZeroShotPrompt pt ∧
     PromptTemplate.input_variables pt = ["input"; "agent_scratchpad"; "num_dfs"]) ∧
  ¬ (∀ log ex pt,
       create_pandas_dataframe_agent "llm"
         (PyList [PyDataFrame ds0; PyDataFrame ds1]) o = (log, Return ex) →
       executor_prompt ex = ZeroShotPrompt pt →
       PromptTemplate.input_variables pt
       = spec_input_variables true
           (preview_forced (suffix o) (include_df_in_prompt o))).
Proof.
  cbv zeta. split.
  - eexists _, _, _. split; [reflexivity|]. split; reflexivity.
  - intros Hclaim. specialize (Hclaim _ _ _ eq_refl eq_refl).
    vm_compute in Hclaim. discriminate.
Qed.

(** C8 at the tool-calling protocol with one extra tool. *)
Lemma C8_witness :
  let o := with_extra_tools [search] (with_agent_type OPENAI_TOOLS default_options) in
  ∃ log ex,
    create_pandas_dataframe_agent "llm" (PyDataFrame ds0) o = (log, Return ex) ∧
    ∃ df_locals kind,
      AgentExecutor.tools ex = PythonAstREPLTool df_locals :: extra_tools o ∧
      Agent.tools (AgentExecutor.agent ex) = AgentExecutor.tools ex ∧
      log = [SetDisplayOption; ToolCreated df_locals;
             AgentCreated kind (AgentExecutor.tools ex)].
Proof.
  simpl. eexists _, _. split; [reflexivity|].
  apply (C8_execution_tool_first "llm" (PyDataFrame ds0)
           (with_extra_tools [search]
              (with_agent_type OPENAI_TOOLS default_options))).
  reflexivity.
Defined.

(** C8 as stated fails for a function-call protocol: the agent is
    constructed with the extra tools already in its tool list, not with the
    execution tool alone. *)
Lemma C8_counterexample :
  let o := with_extra_tools [search]
             (with_include_df_in_prompt (Some false)
                (with_agent_type OPENAI_FUNCTIONS default_options)) in
  (∃ log ex,
     create_pandas_dataframe_agent "llm" (PyDataFrame ds0) o = (log, Return ex) ∧
     Agent.tools (AgentExecutor.agent ex)
     = [PythonAstREPLTool {["df" := ds0]}; search]) ∧
  ¬ (∀ log ex,
       create_pandas_dataframe_agent "llm" (PyDataFrame ds0) o
       = (log, Return ex) →
       Agent.tools (AgentExecutor.agent ex) = [PythonAstREPLTool {["df" := ds0]}]
       ∧ AgentExecutor.tools ex = [PythonAstREPLTool {["df" := ds0]}; search]).
Proof.
  simpl. split.
  - eexists _, _. split; reflexivity.
  - intros Hclaim. destruct (Hclaim _ _ eq_refl) as [Hagent _].
    apply (f_equal length) in Hagent. vm_compute in Hagent. discriminate.
Qed.

(** C10 at the tables [ds0] and [ds1] with two head rows: the slot declared
    by default, for the bare dataframe and for the list; a caller's list that
    omits the slot, with the include flag [True]; and the same tables where
    they cannot be rendered. *)
Lemma C10_witness :
  let tool1 := ToolCreated {["df" := ds0]} in
  let toolN := ToolCreated (bind_locals 0 [ds0; ds1] ∅) in
  let unrendered := ImportError "Missing optional dependency 'tabulate'." in
  (∃ pt tools,
     _get_single_prompt ds0 None None None (Some true) 2 []
     = ([tool1], Return (pt, tools)) ∧
     PromptTemplate.input_variables pt = ["input"; "agent_scratchpad"; "df_head"] ∧
     PromptTemplate.partial_variables pt !! "df_head"
     = Some (table_markdown ["a|b"; "1|2"])) ∧
  (∃ pt tools,
     _get_single_prompt ds0 None None (Some ["input"; "agent_scratchpad"])
       (Some true) 2 []
     = ([tool1], Return (pt, tools)) ∧
     PromptTemplate.input_variables pt = ["input"; "agent_scratchpad"] ∧
     PromptTemplate.partial_variables pt = ∅) ∧
  (∃ pt tools,
     _get_multi_prompt [ds0; ds1] None None None (Some true) 2 []
     = ([toolN], Return (pt, tools)) ∧
     PromptTemplate.input_variables pt
     = ["input"; "agent_scratchpad"; "num_dfs"; "dfs_head"] ∧
     PromptTemplate.partial_variables pt !! "dfs_head"
     = Some (str_join blank_line
               [table_markdown ["a|b"; "1|2"]; table_markdown ["x"; "7"]])) ∧
  (∃ pt tools,
     _get_multi_prompt [ds0; ds1] None None (Some ["input"; "agent_scratchpad"])
       (Some true) 2 []
     = ([toolN], Return (pt, tools)) ∧
     PromptTemplate.input_variables pt = ["input"; "agent_scratchpad"] ∧
     PromptTemplate.partial_variables pt !! "dfs_head" = None) ∧
  @_get_single_prompt Table table_dataset_unrendered _ ds0 None None None
    (Some true) 2 []
  = ([tool1], Raise unrendered) ∧
  (∃ e, @_get_multi_prompt Table table_dataset_unrendered _ [ds0; ds1] None
          None None (Some true) 2 []
        = ([toolN], Raise e)) ∧
  (∃ pt tools,
     @_get_single_prompt Table table_dataset_unrendered _ ds0 None None
       (Some ["input"; "agent_scratchpad"]) (Some true) 2 []
     = ([tool1], Return (pt, tools)) ∧
     PromptTemplate.input_variables pt = ["input"; "agent_scratchpad"] ∧
     PromptTemplate.partial_variables pt = ∅).
Proof.
  cbv zeta.
  split; [|split; [|split; [|split; [|split; [|split]]]]].
  - exact (proj1 (proj2 (C10_preview_bound_iff_slot_declared
             ds0 [ds0; ds1] None None None (Some true) 2 []))).
  - exact (proj1 (proj2 (C10_preview_bound_iff_slot_declared
             ds0 [ds0; ds1] None None (Some ["input"; "agent_scratchpad"])
             (Some true) 2 []))).
  - apply (proj1 (proj2 (proj2 (C10_preview_bound_iff_slot_declared
             ds0 [ds0; ds1] None None None (Some true) 2 [])))).
    repeat constructor.
  - exact (proj2 (proj2 (C10_preview_bound_iff_slot_declared
             ds0 [ds0; ds1] None None (Some ["input"; "agent_scratchpad"])
             (Some true) 2 []))).
  - exact (proj1 (proj2 (@C10_preview_bound_iff_slot_declared Table
             table_dataset_unrendered _
             ds0 [ds0; ds1] None None None (Some true) 2 []))).
  - apply (proj2 (proj2 (proj2 (@C10_preview_bound_iff_slot_declared Table
             table_dataset_unrendered _
             ds0 [ds0; ds1] None None None (Some true) 2 [])))).
    intros mds Hmds. inversion Hmds. discriminate.
  - exact (proj1 (proj2 (@C10_preview_bound_iff_slot_declared Table
             table_dataset_unrendered _
             ds0 [ds0; ds1] None None (Some ["input"; "agent_scratchpad"])
             (Some true) 2 []))).
Defined.

(** C3 at a text-action call and at a tool-calling call, each with a
    caller-supplied suffix and the include flag [None]. *)
Lemma C3_witness :
  let s := "Head: {df_head} Q: {input} {agent_scratchpad}" in
  let o := with_include_df_in_prompt None
             (with_suffix (Some s) react_options) in
  (∃ log ex,
     create_pandas_dataframe_agent "llm" (PyDataFrame ds0) o = (log, Return ex) ∧
     ∃ pt, executor_prompt ex = ZeroShotPrompt pt ∧
       PromptTemplate.suffix pt = s ∧
       (input_variables o = None →
        "df_head" ∈ PromptTemplate.input_variables pt ∧
        ∃ md, to_markdown (head (number_of_head_rows o) ds0) = Return md ∧
          PromptTemplate.partial_variables pt !! "df_head" = Some md)) ∧
  (∃ log ex,
     create_pandas_dataframe_agent "llm" (PyDataFrame ds0)
       (with_agent_type OPENAI_TOOLS
          (with_include_df_in_prompt None
             (with_suffix (Some s) default_options))) = (log, Return ex) ∧
     executor_prompt ex = FunctionsPrompt ("You have a dataframe df. " +:+ s)).
Proof.
  cbv zeta. split.
  - eexists _, _. split; [reflexivity|].
    edestruct (C3_caller_suffix "llm" (PyDataFrame ds0)
                 (with_include_df_in_prompt None
                    (with_suffix
                       (Some "Head: {df_head} Q: {input} {agent_scratchpad}")
                       react_options))
                 "Head: {df_head} Q: {input} {agent_scratchpad}")
      as [Htext _]; [reflexivity|reflexivity|].
    exact (Htext eq_refl).
  - eexists _, _. split; [reflexivity|].
    edestruct (C3_caller_suffix "llm" (PyDataFrame ds0)
                 (with_agent_type OPENAI_TOOLS
                    (with_include_df_in_prompt None
                       (with_suffix
                          (Some "Head: {df_head} Q: {input} {agent_scratchpad}")
                          default_options)))
                 "Head: {df_head} Q: {input} {agent_scratchpad}")
      as [_ Hfunctions]; [reflexivity|reflexivity|].
    exact (Hfunctions (or_intror eq_refl)).
Defined.

(** C3 as stated fails in both protocol families. With an explicit
    input-variable list that omits [df_head], the text-action prompt binds
    no preview; and the function-call system message ends with the caller's
    suffix as given, the preview text occurring nowhere in it. *)
Lemma C3_counterexample :
  let s := "Head: {df_head} {agent_scratchpad}" in
  let preview := table_markdown (table_head 5 ds0) in
  let text := with_input_variables (Some ["input"; "agent_scratchpad"])
                (with_include_df_in_prompt None
                   (with_suffix (Some s) react_options)) in
  let functions := with_agent_type OPENAI_FUNCTIONS
                     (with_include_df_in_prompt None
                        (with_suffix (Some s) default_options)) in
  (∃ log ex pt,
     create_pandas_dataframe_agent "llm" (PyDataFrame ds0) text
     = (log, Return ex) ∧
     executor_prompt ex = ZeroShotPrompt pt ∧
     PromptTemplate.partial_variables pt !! "df_head" = None) ∧
  (∃ log ex,
     create_pandas_dataframe_agent "llm" (PyDataFrame ds0) functions
     = (log, Return ex) ∧
     executor_prompt ex
     = FunctionsPrompt
         "You have a dataframe df. Head: {df_head} {agent_scratchpad}") ∧
  ¬ (∀ log ex pt,
       create_pandas_dataframe_agent "llm" (PyDataFrame ds0) text
       = (log, Return ex) →
       executor_prompt ex = ZeroShotPrompt pt →
       PromptTemplate.suffix pt = s ∧
       PromptTemplate.partial_variables pt !! "df_head" = Some preview) ∧
  ¬ (∀ log ex msg,
       create_pandas_dataframe_agent "llm" (PyDataFrame ds0) functions
       = (log, Return ex) →
       executor_prompt ex = FunctionsPrompt msg →
       (∃ pre, msg = pre +:+ s) ∧ occurs preview msg = true).
Proof.
  cbv zeta. split; [|split; [|split]].
  - eexists _, _, _. split; [reflexivity|]. split; reflexivity.
  - eexists _, _. split; reflexivity.
  - intros Hclaim. destruct (Hclaim _ _ _ eq_refl eq_refl) as [_ Hbound].
    vm_compute in Hbound. discriminate.
  - intros Hclaim. destruct (Hclaim _ _ _ eq_refl eq_refl) as [_ Hoccurs].
    vm_compute in Hoccurs. discriminate.
Qed.

(* ===================================================================== *)
(** ** The further properties at concrete calls *)
(* ===================================================================== *)

(** X1 at the default call, in an interpreter without pandas. *)
Lemma X1_witness :
  @create_pandas_dataframe_agent Table _ env_no_pandas _ _ "llm"
    (PyDataFrame ds0) default_options
  = ([], Raise MissingDependency).
Proof.
  apply (@X1_missing_pandas_preempts_validation Table _ env_no_pandas _ _ "llm"
           (PyDataFrame ds0) default_options); [reflexivity|by left].
Defined.

(** X2 at a list holding a dataframe and a string, on the tool-calling
    protocol. *)
Lemma X2_witness :
  let df := PyList [PyDataFrame ds0; PyOther "str"] in
  create_pandas_dataframe_agent "llm" df
    (with_agent_type OPENAI_TOOLS default_options)
  = ([SetDisplayOption], Raise (TypeMismatch df)) ∧
  (∀ items, df = PyList items →
     TypeMismatch df = ValueError "Expected pandas object, got <class 'list'>").
Proof.
  apply (X2_foreign_argument_rejected "llm"
           (PyList [PyDataFrame ds0; PyOther "str"])
           (with_agent_type OPENAI_TOOLS default_options));
    [reflexivity|right; by right|by right|reflexivity|reflexivity].
Defined.

(** X3 at a list of two dataframes with the defaults: the helper returns. *)
Lemma X3_witness :
  ∃ l pt tools,
    _get_prompt_and_tools (PyList [PyDataFrame ds0; PyDataFrame ds1])
      None None None (Some true) 5 []
    = (l, Return (pt, tools)).
Proof.
  apply (X3_text_action_assembly_conditions
           (PyList [PyDataFrame ds0; PyDataFrame ds1])
           None None None (Some true) 5 []).
  split; [reflexivity|]. split; [by right|].
  exists [ds0; ds1]. split; [reflexivity|]. intros _.
  eexists. repeat constructor.
Defined.

(** X4 at a tool-calling call that sets a suffix beside the default include
    flag. *)
Lemma X4_witness :
  let o := with_agent_type OPENAI_TOOLS
             (with_suffix (Some "Begin!") (default_options (D:=Table))) in
  create_pandas_dataframe_agent "llm" (PyDataFrame ds0) o
  = ([SetDisplayOption], Raise ConfigurationConflict) ∧
  nothing_constructed ([SetDisplayOption] : list (Event Table)).
Proof.
  cbv zeta. split; [reflexivity|].
  apply (X4_failure_constructs_nothing "llm" (PyDataFrame ds0)
           (with_agent_type OPENAI_TOOLS
              (with_suffix (Some "Begin!") default_options))
           [SetDisplayOption] ConfigurationConflict);
    [discriminate|by apply sample_no_keyword_clash|reflexivity].
Defined.

(** X5 at a tool-calling call whose executor keywords repeat [verbose]. *)
Lemma X5_witness :
  let o := with_agent_executor_kwargs (Some {["verbose" := "True"]})
             (with_agent_type OPENAI_TOOLS (default_options (D:=Table))) in
  (∀ log ex,
     create_pandas_dataframe_agent "llm" (PyDataFrame ds0) o
     ≠ (log, Return ex)) ∧
  ∃ log e,
    create_pandas_dataframe_agent "llm" (PyDataFrame ds0) o = (log, Raise e) ∧
    (nothing_constructed log ∨
     ∃ msg df_locals kind tools,
       e = TypeError msg ∧
       log = [SetDisplayOption; ToolCreated df_locals; AgentCreated kind tools] ∧
       tools = PythonAstREPLTool df_locals :: extra_tools o).
Proof.
  cbv zeta.
  destruct (X5_keyword_clash_never_returns "llm" (PyDataFrame ds0)
              (with_agent_executor_kwargs (Some {["verbose" := "True"]})
                 (with_agent_type OPENAI_TOOLS default_options))
              {["verbose" := "True"]} "verbose") as [Hnever Hraises];
    [reflexivity|set_solver|by rewrite lookup_singleton_eq|].
  split; [exact Hnever|]. apply Hraises. by right.
Defined.

(** X7 at a list of two dataframes with the include flag [None]. *)
Lemma X7_witness :
  let o := with_include_df_in_prompt None react_options in
  ∃ log ex,
    create_pandas_dataframe_agent "llm"
      (PyList [PyDataFrame ds0; PyDataFrame ds1]) o = (log, Return ex) ∧
    ∃ pt, executor_prompt ex = ZeroShotPrompt pt ∧
      PromptTemplate.suffix pt = SUFFIX_NO_DF.
Proof.
  cbv zeta. eexists _, _. split; [reflexivity|].
  eapply (X7_built_in_suffix "llm" (PyList [PyDataFrame ds0; PyDataFrame ds1])
            (with_include_df_in_prompt None react_options)); reflexivity.
Defined.

(** X8 at a bare dataframe with a caller-supplied prefix and one extra
    tool. *)
Lemma X8_witness :
  let o := with_extra_tools [search] react_options in
  ∃ log ex,
    create_pandas_dataframe_agent "llm" (PyDataFrame ds0) o = (log, Return ex) ∧
    ∃ pt, executor_prompt ex = ZeroShotPrompt pt ∧
      PromptTemplate.prefix pt = react_prefix ∧
      PromptTemplate.tools pt = AgentExecutor.tools ex.
Proof.
  cbv zeta. eexists _, _. split; [reflexivity|].
  eapply (X8_text_action_prefix "llm" (PyDataFrame ds0)
            (with_extra_tools [search] react_options)); reflexivity.
Defined.

(** X9 at a list of two dataframes whose input-variable list names
    [dfs_head] but not [num_dfs]. *)
Lemma X9_witness :
  let o := with_input_variables (Some ["input"; "agent_scratchpad"; "dfs_head"])
             react_options in
  ∃ log ex,
    create_pandas_dataframe_agent "llm"
      (PyList [PyDataFrame ds0; PyDataFrame ds1]) o = (log, Return ex) ∧
    ∃ pt, executor_prompt ex = ZeroShotPrompt pt ∧
      (∀ k, is_Some (PromptTemplate.partial_variables pt !! k) →
            k = "num_dfs" ∨ k = "dfs_head") ∧
      PromptTemplate.partial_variables pt !! "num_dfs"
      = if bool_decide ("num_dfs" ∈ PromptTemplate.input_variables pt)
           || bool_decide ("dfs_head" ∈ PromptTemplate.input_variables pt)
        then Some "2" else None.
Proof.
  cbv zeta. eexists _, _. split; [reflexivity|].
  eapply (X9_prefilled_slots "llm" (PyList [PyDataFrame ds0; PyDataFrame ds1])
            (with_input_variables
               (Some ["input"; "agent_scratchpad"; "dfs_head"])
               react_options)); reflexivity.
Defined.

(** X12 at the tool-calling protocol with the include flag [False] and one
    extra tool. *)
Lemma X12_witness :
  let o := with_extra_tools [search]
             (with_include_df_in_prompt (Some false)
                (with_agent_type OPENAI_TOOLS default_options)) in
  ∃ log ex,
    create_pandas_dataframe_agent "llm" (PyDataFrame ds0) o = (log, Return ex) ∧
    executor_prompt ex = FunctionsPrompt "You have a dataframe df. " ∧
    AgentExecutor.tools ex = [PythonAstREPLTool {["df" := ds0]}; search].
Proof.
  exact (X12_function_call_prefix_alone "llm" ds0
           (with_extra_tools [search]
              (with_include_df_in_prompt (Some false)
                 (with_agent_type OPENAI_TOOLS default_options)))
           eq_refl (or_intror eq_refl) eq_refl eq_refl eq_refl
           (sample_no_keyword_clash
              (with_extra_tools [search]
                 (with_include_df_in_prompt (Some false)
                    (with_agent_type OPENAI_TOOLS default_options)))
              eq_refl)).
Defined.



(** X15 at the default text-action call: the built-in templates name
    neither [tools] nor [tool_names]. *)
Lemma X15_witness :
  create_pandas_dataframe_agent "llm" (PyDataFrame ds0) default_options
  = ([SetDisplayOption; ToolCreated {["df" := ds0]}],
     Raise (ValueError "Prompt missing required variables")) ∧
  ∃ df_locals,
    [SetDisplayOption; ToolCreated {["df" := ds0]}]
    = [SetDisplayOption; ToolCreated df_locals] ∧
    [PythonAstREPLTool {["df" := ds0]}]
    = PythonAstREPLTool df_locals :: extra_tools (default_options (D:=Table)) ∧
    ¬ nothing_constructed [SetDisplayOption; ToolCreated {["df" := ds0]}].
Proof.
  eapply (X15_react_rejection_follows_tool "llm" (PyDataFrame ds0)
            default_options); reflexivity.
Defined.

(** X16 at a text-action call over tables that cannot be rendered. *)
Lemma X16_witness :
  @create_pandas_dataframe_agent Table table_dataset_unrendered _ _ _ "llm"
    (PyDataFrame ds0) react_options
  = ([SetDisplayOption; ToolCreated {["df" := ds0]}],
     Raise (ImportError "Missing optional dependency 'tabulate'.")) ∧
  ∃ e,
    @create_pandas_dataframe_agent Table table_dataset_unrendered _ _ _ "llm"
      (PyList (PyDataFrame <$> [ds0; ds1])) react_options
    = ([SetDisplayOption; ToolCreated (bind_locals 0 [ds0; ds1] ∅)], Raise e).
Proof.
  destruct (@X16_text_action_rendering_failure Table table_dataset_unrendered
              env _ _ "llm" ds0 [ds0; ds1] react_options
              eq_refl (or_intror eq_refl) eq_refl) as [Hsingle Hlist].
  split.
  - apply Hsingle; [set_solver|reflexivity].
  - apply Hlist; [set_solver|].
    intros mds Hmds. inversion Hmds. discriminate.
Defined.
